(** * ClaimCompass: the client form controller of frontend/script.js

    A shallow embedding of the browser script that drives the ClaimCompass
    page: the DOM elements it holds are a record of their properties, every
    function of the script is a function on that record, and the browser's
    event loop is a step function over the events the script listens to.
    The view transitions of the rebranded copy of the script (three
    sections, no welcome card) are embedded beside it in [ScaleAI].

    Conventions.
    - A JavaScript string is a [string] whose characters are code units
      below 256.
    - [style.display] of an element is a [display]; an element is displayed
      when its display is not [none].
    - CSS class changes ([classList.add/remove] and the timers that undo
      them), [console] output, [preventDefault] and scrolling leave the
      modelled properties untouched and are left out; so are the handlers
      that do nothing else ([handleDragOver], [handleDragLeave],
      [handleFormKeyDown], [handleUploadAreaClick]) and
      [checkAPIConnection], the probe of [/health] at load whose answer is
      only logged.
    - The page records the requests that [analyzeImage] sends ([posted]).
      Other traffic is not recorded: the probe of [/health] at load, and
      the image the browser loads when [previewUrl] sets
      [urlPreviewImage.src].
    - An [async] function is cut at its [await fetch]: the part before it
      runs in the task of the event that called it, the part after it runs
      in a later task when the request settles. Between that point and the
      [await response.json()] that follows, the function reads and writes
      nothing of the page, so the two are taken in one step. *)

From Stdlib Require Import String Ascii List Bool Arith ZArith Lia.
Import ListNotations.
Local Open Scope list_scope.
Local Open Scope string_scope.

(** ** JavaScript strings *)

Module JsString.

Definition nl : string := String "010"%char "".

(** [s.startsWith(p)] *)
Definition startsWith (s p : string) : bool := String.prefix p s.

(** [s.includes(p)] *)
Fixpoint includes (s p : string) : bool :=
  String.prefix p s ||
  match s with
  | EmptyString => false
  | String _ s' => includes s' p
  end.

(** White space and line terminators of ECMAScript among the code units
    below 256: TAB, LF, VT, FF, CR, SP and NBSP. *)
Definition isWhiteSpace (c : ascii) : bool :=
  let n := nat_of_ascii c in
  Nat.eqb n 9 || Nat.eqb n 10 || Nat.eqb n 11 || Nat.eqb n 12
  || Nat.eqb n 13 || Nat.eqb n 32 || Nat.eqb n 160.

Fixpoint trimStart (s : string) : string :=
  match s with
  | EmptyString => EmptyString
  | String c s' => if isWhiteSpace c then trimStart s' else s
  end.

Fixpoint trimEnd (s : string) : string :=
  match s with
  | EmptyString => EmptyString
  | String c s' =>
      match trimEnd s' with
      | EmptyString => if isWhiteSpace c then EmptyString else String c EmptyString
      | r => String c r
      end
  end.

(** [s.trim()] *)
Definition trim (s : string) : string := trimEnd (trimStart s).

(** [s.slice(0, n)] for [n >= 0] *)
Definition slice0 (n : nat) (s : string) : string := String.substring 0 n s.

(** [s.replace(/c/g, d)] for single characters [c] and [d] *)
Fixpoint replaceAll (c d : ascii) (s : string) : string :=
  match s with
  | EmptyString => EmptyString
  | String a s' => String (if Ascii.eqb a c then d else a) (replaceAll c d s')
  end.

(** [lines.join('\n')] *)
Fixpoint unlines (ls : list string) : string :=
  match ls with
  | [] => ""
  | [l] => l
  | l :: ls' => l ++ nl ++ unlines ls'
  end.

(** A string is truthy when it is not empty. *)
Definition nonEmpty (s : string) : bool :=
  match s with EmptyString => false | _ => true end.

End JsString.
Import JsString.

(** ** JavaScript values in a response body *)

(** The values of a parsed JSON body; a property that is missing reads as
    [JUndefined]. The script converts such a value to a boolean and to a
    string and does nothing else with it, so a number is given by whether
    it is zero and by the digits that [Number::toString] prints for it, and
    a nested object by nothing: its members are never read. (An object with
    a member named [toString], whose conversion to a string throws, is not
    among them.) *)
#[warnings="-register-all"]
Inductive jsval : Type :=
| JUndefined
| JNull
| JBool (b : bool)
| JNum (isZero : bool) (digits : string)
| JStr (s : string)
| JArr (items : list jsval)
| JObj.

(** ToBoolean: an array and an object are truthy, also when empty. *)
Definition truthy (v : jsval) : bool :=
  match v with
  | JUndefined | JNull => false
  | JBool b => b
  | JNum isZero _ => negb isZero
  | JStr s => nonEmpty s
  | JArr _ | JObj => true
  end.

(** ToString, as a template literal, [new Error(v)] and [textContent = v]
    apply it to a value that is not [null]/[undefined] for the latter two.
    An array prints as its items joined by commas, where a [null] or
    [undefined] item prints as nothing: [[]] prints as the empty string. *)
Fixpoint toString (v : jsval) : string :=
  match v with
  | JUndefined => "undefined"
  | JNull => "null"
  | JBool true => "true"
  | JBool false => "false"
  | JNum _ digits => digits
  | JStr s => s
  | JArr items =>
      String.concat ","
        (map (fun item => match item with
                          | JUndefined | JNull => ""
                          | _ => toString item
                          end) items)
  | JObj => "[object Object]"
  end.

(** [v || d] with a string literal [d], converted to a string. *)
Definition orElse (v : jsval) (d : string) : string :=
  if truthy v then toString v else d.

(** The properties of a parsed response body that the script reads. *)
Record jsobject : Type := mkObject {
  success : jsval;
  make : jsval;
  model : jsval;
  color : jsval;
  damage_summary : jsval;
  repair_cost_estimate : jsval;
  error : jsval;
  detail : jsval
}.

(** ** The page *)

Inductive display : Type := none | block | flex.

Definition displayed (d : display) : bool :=
  match d with none => false | _ => true end.

(** A [File] of the File API: the script reads its [type]; the name stands
    for its identity. *)
Record File : Type := mkFile { name : string; type : string }.

(** A body part of a [FormData]. *)
Inductive formValue : Type :=
| FileValue (f : File)
| TextValue (s : string).

(** A call of [fetch]. *)
Record request : Type := mkRequest {
  method : string;
  endpoint : string;
  body : list (string * formValue)
}.

(** A download the page triggers: the [Blob] (its text and MIME type) behind
    the clicked anchor and the anchor's [download] name. *)
Record download : Type := mkDownload {
  blobText : string;
  blobType : string;
  fileName : string
}.

(** The four cards, [xCard.style.display]. *)
Record Cards : Type := mkCards {
  welcomeCard : display;
  loadingCard : display;
  resultsCard : display;
  errorCard : display
}.

(** [analyzeBtn] *)
Record Button : Type := mkButton {
  disabled : bool;
  innerHTML : string
}.

(** [textContent] of the result elements and of [errorMessage]. *)
Record Texts : Type := mkTexts {
  carMake : string;
  carModel : string;
  carColor : string;
  damageSummary : string;
  repairCost : string;
  errorMessage : string
}.

(** The upload side: [fileInput.files], [previewImage.src],
    [filePreview.style.display] and the files a [FileReader] is reading. *)
Record Upload : Type := mkUpload {
  files : list File;
  previewImage_src : string;
  filePreview : display;
  reading : list File
}.

(** The URL side: [imageUrlInput.value], [urlPreviewImage.src],
    [urlPreview.style.display] and whether [previewUrl] has installed
    [urlPreviewImage.onload/onerror]. *)
Record UrlBox : Type := mkUrlBox {
  value : string;
  urlPreviewImage_src : string;
  urlPreview : display;
  hooked : bool
}.

Record page : Type := mkPage {
  currentAnalysisData : option jsobject;   (* null or the stored response *)
  cards : Cards;
  analyzeBtn : Button;
  texts : Texts;
  upload : Upload;
  urlBox : UrlBox;
  posted : list request;     (* the requests of analyzeImage, latest first *)
  pending : nat;             (* requests not yet settled *)
  saved : list download      (* every download triggered, latest first *)
}.

Definition with_data (st : page) (d : option jsobject) : page :=
  mkPage d (cards st) (analyzeBtn st) (texts st) (upload st) (urlBox st)
         (posted st) (pending st) (saved st).

Definition with_cards (st : page) (c : Cards) : page :=
  mkPage (currentAnalysisData st) c (analyzeBtn st) (texts st) (upload st)
         (urlBox st) (posted st) (pending st) (saved st).

Definition with_button (st : page) (b : Button) : page :=
  mkPage (currentAnalysisData st) (cards st) b (texts st) (upload st)
         (urlBox st) (posted st) (pending st) (saved st).

Definition with_texts (st : page) (t : Texts) : page :=
  mkPage (currentAnalysisData st) (cards st) (analyzeBtn st) t (upload st)
         (urlBox st) (posted st) (pending st) (saved st).

Definition with_upload (st : page) (u : Upload) : page :=
  mkPage (currentAnalysisData st) (cards st) (analyzeBtn st) (texts st) u
         (urlBox st) (posted st) (pending st) (saved st).

Definition with_urlBox (st : page) (u : UrlBox) : page :=
  mkPage (currentAnalysisData st) (cards st) (analyzeBtn st) (texts st)
         (upload st) u (posted st) (pending st) (saved st).

Definition with_fetch (st : page) (r : request) : page :=
  mkPage (currentAnalysisData st) (cards st) (analyzeBtn st) (texts st)
         (upload st) (urlBox st) (r :: posted st) (S (pending st)) (saved st).

Definition with_settled (st : page) : page :=
  mkPage (currentAnalysisData st) (cards st) (analyzeBtn st) (texts st)
         (upload st) (urlBox st) (posted st) (pred (pending st)) (saved st).

Definition with_download (st : page) (d : download) : page :=
  mkPage (currentAnalysisData st) (cards st) (analyzeBtn st) (texts st)
         (upload st) (urlBox st) (posted st) (pending st) (d :: saved st).

(** ** Configuration *)

Definition API_ENDPOINT : string := "/api/analyze".

(** ** View transitions *)

Definition showLoading (st : page) : page :=
  let st := with_cards st {| welcomeCard := none;
                             resultsCard := none;
                             errorCard := none;
                             loadingCard := block |} in
  with_button st {| disabled := true; innerHTML := "Analyzing..." |}.

Definition hideLoading (st : page) : page :=
  let c := cards st in
  let st := with_cards st {| loadingCard := none;
                             welcomeCard := welcomeCard c;
                             resultsCard := resultsCard c;
                             errorCard := errorCard c |} in
  with_button st {| disabled := false; innerHTML := "Analyze Damage" |}.

Definition showResults (data : jsobject) (st : page) : page :=
  let st := with_texts st
    {| carMake := orElse (make data) "Unknown";
       carModel := orElse (model data) "Unknown";
       carColor := orElse (color data) "Unknown";
       damageSummary := orElse (damage_summary data) "No damage assessment available";
       repairCost := orElse (repair_cost_estimate data) "Unable to estimate";
       errorMessage := errorMessage (texts st) |} in
  with_cards st {| welcomeCard := none;
                   errorCard := none;
                   resultsCard := block;
                   loadingCard := loadingCard (cards st) |}.

Definition showError (message : string) (st : page) : page :=
  let t := texts st in
  let st := with_texts st
    {| errorMessage := message;
       carMake := carMake t; carModel := carModel t; carColor := carColor t;
       damageSummary := damageSummary t; repairCost := repairCost t |} in
  let st := with_cards st {| welcomeCard := none;
                             resultsCard := none;
                             errorCard := block;
                             loadingCard := loadingCard (cards st) |} in
  hideLoading st.

(** ** Input handlers *)

(** [fileInput.value = ''] empties the list of selected files. *)
Definition clearFile (st : page) : page :=
  with_upload st {| files := [];
                    filePreview := none;
                    previewImage_src := "";
                    reading := reading (upload st) |}.

Definition clearUrl (st : page) : page :=
  with_urlBox st {| value := "";
                    urlPreview := none;
                    urlPreviewImage_src := "";
                    hooked := hooked (urlBox st) |}.

Definition clearFileWhenUrlEntered (st : page) : page :=
  if nonEmpty (trim (value (urlBox st))) then clearFile st else st.

(** [reader.readAsDataURL(file)] starts a read; [reader.onload] runs in a
    later task ([readerOnload]). *)
Definition previewFile (file : File) (st : page) : page :=
  if negb (startsWith (type file) "image/") then
    showError "Please select an image file" st
  else
    let u := upload st in
    with_upload st {| reading := file :: reading u;
                      files := files u;
                      previewImage_src := previewImage_src u;
                      filePreview := filePreview u |}.

Definition readerOnload (result : string) (st : page) : page :=
  let u := upload st in
  with_upload st {| previewImage_src := result;
                    filePreview := block;
                    files := files u;
                    reading := tl (reading u) |}.

(** [event.target.files] is [fileInput.files]. *)
Definition handleFileSelect (st : page) : page :=
  match files (upload st) with
  | file :: _ => previewFile file (clearUrl st)
  | [] => st
  end.

(** [dropped] is [event.dataTransfer.files]. *)
Definition handleDrop (dropped : list File) (st : page) : page :=
  match dropped with
  | file :: _ =>
      if startsWith (type file) "image/" then
        let u := upload st in
        let st := with_upload st {| files := dropped;
                                    previewImage_src := previewImage_src u;
                                    filePreview := filePreview u;
                                    reading := reading u |} in
        previewFile file (clearUrl st)
      else
        showError "Please drop an image file" st
  | [] => st
  end.

Definition previewUrl (st : page) : page :=
  let url := trim (value (urlBox st)) in
  if negb (nonEmpty url) then
    showError "Please enter an image URL" st
  else
    let st := clearFile st in
    with_urlBox st {| urlPreviewImage_src := url;
                      hooked := true;
                      value := value (urlBox st);
                      urlPreview := urlPreview (urlBox st) |}.

Definition urlPreviewImage_onload (st : page) : page :=
  let u := urlBox st in
  with_urlBox st {| urlPreview := block;
                    value := value u;
                    urlPreviewImage_src := urlPreviewImage_src u;
                    hooked := hooked u |}.

Definition urlPreviewImage_onerror (st : page) : page :=
  let st := showError
    "Unable to load image from URL. Please check the URL and try again." st in
  let u := urlBox st in
  with_urlBox st {| urlPreview := none;
                    value := value u;
                    urlPreviewImage_src := urlPreviewImage_src u;
                    hooked := hooked u |}.

(** ** Analysis *)

(** What [response.json()] resolves to: the parsed body, or a rejection
    with the parser's message when the body is not JSON. A body that is
    JSON but no object has none of the properties; when it is [null], the
    first property read throws, with the effect of a rejection that
    carries the message of that error. *)
Inductive jsonResult : Type :=
| Parsed (o : jsobject)
| Unparsable (message : string).

(** How the [fetch] settles: rejected with an error's message, or resolved
    with a response. *)
Inductive fetchResult : Type :=
| Rejected (message : string)
| Response (status : Z) (json : jsonResult).

(** [response.ok] *)
Definition ok (status : Z) : bool := (200 <=? status)%Z && (status <=? 299)%Z.

(** How a block ends: normally, or by [throw new Error(message)]. *)
Inductive completion : Type :=
| Normal (st : page)
| Throw (message : string) (st : page).

(** [analyzeImage] up to [await fetch(...)]. *)
Definition analyzeImage_request (file : option File) (url : string)
    (st : page) : page :=
  let st := showLoading st in
  let formData := [] in
  let formData :=
    match file with
    | Some f => (formData ++ [("file", FileValue f)])%list
    | None => formData
    end in
  let formData :=
    if nonEmpty url then (formData ++ [("image_url", TextValue url)])%list
    else formData in
  with_fetch st {| method := "POST"; endpoint := API_ENDPOINT; body := formData |}.

(** The rest of the [try] block, from the point where [fetch] settles. *)
Definition analyzeImage_try (r : fetchResult) (st : page) : completion :=
  match r with
  | Rejected message => Throw message st
  | Response status json =>
      if negb (ok status) then
        match json with
        | Unparsable message => Throw message st
        | Parsed errorData =>
            Throw (orElse (detail errorData) "Analysis failed") st
        end
      else
        match json with
        | Unparsable message => Throw message st
        | Parsed data =>
            if truthy (success data) then
              let st := with_data st (Some data) in
              Normal (showResults data st)
            else
              Throw (orElse (error data) "Analysis failed") st
        end
  end.

Definition analyzeImage_catch (message : string) (st : page) : page :=
  if includes message "fetch" then
    showError "Unable to connect to the analysis service. Please check if the backend server is running." st
  else
    showError (if nonEmpty message then message
               else "Failed to analyze image. Please try again.") st.

(** [analyzeImage] from the point where [fetch] settles: the rest of [try],
    then [catch] and [finally]. *)
Definition analyzeImage_settle (r : fetchResult) (st : page) : page :=
  let st :=
    match analyzeImage_try r st with
    | Normal st => st
    | Throw message st => analyzeImage_catch message st
    end in
  hideLoading st.

(** A whole call of [analyzeImage] with nothing running in between. *)
Definition analyzeImage (file : option File) (url : string) (r : fetchResult)
    (st : page) : page :=
  analyzeImage_settle r (analyzeImage_request file url st).

(** [files[0]] is a [File] (truthy) or [undefined]. *)
Definition given (file : option File) : bool :=
  match file with Some _ => true | None => false end.

(** [handleFormSubmit]: everything it does happens before the [await]. *)
Definition handleFormSubmit (st : page) : page :=
  let file := hd_error (files (upload st)) in
  let url := trim (value (urlBox st)) in
  if negb (given file) && negb (nonEmpty url) then
    showError "Please upload an image file or enter an image URL" st
  else if given file && nonEmpty url then
    showError "Please provide either a file or URL, not both" st
  else
    analyzeImage_request file url st.

Definition resetForm (st : page) : page :=
  let st := clearFile st in
  let st := clearUrl st in
  let st := with_data st None in
  let st := with_cards st {| resultsCard := none;
                             errorCard := none;
                             welcomeCard := block;
                             loadingCard := loadingCard (cards st) |} in
  with_button st {| disabled := false; innerHTML := "Analyze Damage" |}.

(** ** The report *)

(** A [new Date()]: what the script asks of it. *)
Record Date : Type := mkDate {
  toISOString : string;
  toLocaleString : string
}.

Record ReportData : Type := mkReportData {
  timestamp : string;
  vehicle_make : jsval;
  vehicle_model : jsval;
  vehicle_color : jsval;
  damage_summary_ : jsval;
  damage_estimated_cost : jsval;
  analysis_method : string;
  disclaimer : string
}.

Definition DISCLAIMER : string :=
  "This is an automated assessment for estimation purposes only. Professional inspection is recommended for accurate damage evaluation.".

Definition makeReportData (data : jsobject) (now : Date) : ReportData :=
  {| timestamp := toISOString now;
     vehicle_make := make data;
     vehicle_model := model data;
     vehicle_color := color data;
     damage_summary_ := damage_summary data;
     damage_estimated_cost := repair_cost_estimate data;
     analysis_method := "AI-powered analysis using OpenAI GPT-4o";
     disclaimer := DISCLAIMER |}.

(** The template literal, line by line, before [.trim()]. *)
Definition reportTemplate (reportData : ReportData) (now : Date) : list string :=
  [ "";
    "CLAIMCOMPASS DAMAGE ANALYSIS REPORT";
    "Generated: " ++ toLocaleString now;
    "";
    "VEHICLE INFORMATION:";
    "Make: " ++ toString (vehicle_make reportData);
    "Model: " ++ toString (vehicle_model reportData);
    "Color: " ++ toString (vehicle_color reportData);
    "";
    "DAMAGE ASSESSMENT:";
    toString (damage_summary_ reportData);
    "";
    "ESTIMATED REPAIR COST:";
    toString (damage_estimated_cost reportData);
    "";
    "ANALYSIS METHOD:";
    analysis_method reportData;
    "";
    "DISCLAIMER:";
    disclaimer reportData;
    "";
    "---";
    "Report generated by ClaimCompass";
    "AI-Powered Insurance Technology Demo";
    "    " ].

Definition reportText (reportData : ReportData) (now : Date) : string :=
  trim (unlines (reportTemplate reportData now)).

Definition reportName (now : Date) : string :=
  "ClaimCompass_Report_"
  ++ replaceAll ":"%char "-"%char (slice0 19 (toISOString now))
  ++ ".txt".

(** [now1], [now2] and [now3] are the three [new Date()] of the function,
    in the order it creates them. *)
Definition downloadReport (now1 now2 now3 : Date) (st : page) : page :=
  match currentAnalysisData st with
  | None => showError "No analysis data available to download" st
  | Some data =>
      let reportData := makeReportData data now1 in
      with_download st {| blobText := reportText reportData now2;
                          blobType := "text/plain";
                          fileName := reportName now3 |}
  end.

(** ** The event loop *)

(** The tasks that run code of the script. [EvChange], [EvInput] and
    [EvDrop] carry what the browser hands to the handler: the files now
    selected, the text now in the URL field, the dropped files. *)
Inductive event : Type :=
| EvChange (selected : list File)
| EvDrop (dropped : list File)
| EvInput (text : string)
| EvSubmit
| EvSettle (r : fetchResult)
| EvReaderLoad (result : string)
| EvPreviewUrl
| EvImageLoad
| EvImageError
| EvReset
| EvDownload (now1 now2 now3 : Date)
| EvOffline.

Definition handle (e : event) (st : page) : page :=
  match e with
  | EvChange selected =>
      let u := upload st in
      handleFileSelect
        (with_upload st {| files := selected;
                           previewImage_src := previewImage_src u;
                           filePreview := filePreview u;
                           reading := reading u |})
  | EvDrop dropped => handleDrop dropped st
  | EvInput text =>
      let u := urlBox st in
      clearFileWhenUrlEntered
        (with_urlBox st {| value := text;
                           urlPreviewImage_src := urlPreviewImage_src u;
                           urlPreview := urlPreview u;
                           hooked := hooked u |})
  | EvSubmit => handleFormSubmit st
  | EvSettle r => analyzeImage_settle r (with_settled st)
  | EvReaderLoad result => readerOnload result st
  | EvPreviewUrl => previewUrl st
  | EvImageLoad => if hooked (urlBox st) then urlPreviewImage_onload st else st
  | EvImageError => if hooked (urlBox st) then urlPreviewImage_onerror st else st
  | EvReset => resetForm st
  | EvDownload now1 now2 now3 => downloadReport now1 now2 now3 st
  | EvOffline =>
      showError "No internet connection. Please check your network and try again." st
  end.

(** The page after a sequence of events, first event first. *)
Definition run (es : list event) (st : page) : page :=
  fold_left (fun st e => handle e st) es st.

(** Whether the browser can deliver [e] to the page [st]: a request settles
    only while one is pending, a reader finishes only while one reads. *)
Definition deliverable (e : event) (st : page) : bool :=
  match e with
  | EvSettle _ => negb (Nat.eqb (pending st) 0)
  | EvReaderLoad _ => match reading (upload st) with [] => false | _ => true end
  | _ => true
  end.

Fixpoint feasible (es : list event) (st : page) : bool :=
  match es with
  | [] => true
  | e :: es' => deliverable e st && feasible es' (handle e st)
  end.

(** Modelled from the spec: the page as the markup (index.html, not part of
    the script) first shows it, in the idle view: only the welcome card is
    displayed, nothing is selected, entered, requested or stored. *)
Definition initial : page :=
  {| currentAnalysisData := None;
     cards := {| welcomeCard := block; loadingCard := none;
                 resultsCard := none; errorCard := none |};
     analyzeBtn := {| disabled := false; innerHTML := "Analyze Damage" |};
     texts := {| carMake := ""; carModel := ""; carColor := "";
                 damageSummary := ""; repairCost := ""; errorMessage := "" |};
     upload := {| files := []; previewImage_src := ""; filePreview := none;
                  reading := [] |};
     urlBox := {| value := ""; urlPreviewImage_src := ""; urlPreview := none;
                  hooked := false |};
     posted := [];
     pending := 0;
     saved := [] |}.

(** ** What the claims speak about *)

(** How many of the four cards are displayed. *)
Definition shown (d : display) : nat := if displayed d then 1 else 0.

Definition cardsDisplayed (st : page) : nat :=
  shown (welcomeCard (cards st)) + shown (loadingCard (cards st))
  + shown (resultsCard (cards st)) + shown (errorCard (cards st)).

(** The error view: the error card alone is displayed. *)
Definition errorView (st : page) : Prop :=
  errorCard (cards st) = block /\ resultsCard (cards st) = none
  /\ loadingCard (cards st) = none /\ welcomeCard (cards st) = none.

(** The submit control in its idle form. *)
Definition buttonIdle (st : page) : Prop :=
  disabled (analyzeBtn st) = false
  /\ innerHTML (analyzeBtn st) = "Analyze Damage".

(** The file and the URL as [handleFormSubmit] reads them. *)
Definition selectedFile (st : page) : option File := hd_error (files (upload st)).
Definition enteredUrl (st : page) : string := trim (value (urlBox st)).

(** At most one of the two inputs is present. *)
Definition exclusiveInputs (st : page) : Prop :=
  selectedFile st = None \/ enteredUrl st = "".

(** The response body of an analysis that succeeded: a 2xx status, a body
    that parses, and a truthy [success]. *)
Definition succeeded (r : fetchResult) : option jsobject :=
  match r with
  | Response status (Parsed data) =>
      if ok status && truthy (success data) then Some data else None
  | _ => None
  end.

(** A response (the request did reach the server) that reports a failure:
    a status outside 2xx, or a parsed body whose [success] is not truthy. *)
Definition serverFailure (r : fetchResult) : bool :=
  match r with
  | Rejected _ => false
  | Response status json =>
      negb (ok status)
      || match json with
         | Parsed data => negb (truthy (success data))
         | Unparsable _ => false
         end
  end.

(** What the stored result is after an event, given what it was before:
    a successful response replaces it, a reset clears it, nothing else
    touches it. *)
Definition storedAfter (e : event) (before : option jsobject) : option jsobject :=
  match e with
  | EvSettle r =>
      match succeeded r with
      | Some data => Some data
      | None => before
      end
  | EvReset => None
  | _ => before
  end.

(** An event that leaves the stored result alone. *)
Definition keepsResult (e : event) : bool :=
  match e with
  | EvSettle r => match succeeded r with Some _ => false | None => true end
  | EvReset => false
  | _ => true
  end.

(** ** The rebranded copy of the script

    The repository holds a second copy of the controller with three
    sections in place of the four cards (it has no welcome card). Its view
    transitions are modelled here for comparison; the two templates its
    button switches between are [Idle] and [Busy]. *)

Module ScaleAI.

Inductive label : Type := Idle | Busy.

Record view : Type := mkView {
  loadingSection : display;
  resultsSection : display;
  errorSection : display;
  btnDisabled : bool;
  btnLabel : label;
  errorText : string
}.

Definition showLoading (v : view) : view :=
  {| resultsSection := none;
     errorSection := none;
     loadingSection := flex;
     btnDisabled := true;
     btnLabel := Busy;
     errorText := errorText v |}.

Definition hideLoading (v : view) : view :=
  {| loadingSection := none;
     btnDisabled := false;
     btnLabel := Idle;
     resultsSection := resultsSection v;
     errorSection := errorSection v;
     errorText := errorText v |}.

(** The part of [showResults] that changes the sections. *)
Definition showResults (v : view) : view :=
  {| loadingSection := none;
     errorSection := none;
     resultsSection := block;
     btnDisabled := btnDisabled v;
     btnLabel := btnLabel v;
     errorText := errorText v |}.

Definition showError (message : string) (v : view) : view :=
  hideLoading {| errorText := message;
                 loadingSection := none;
                 resultsSection := none;
                 errorSection := flex;
                 btnDisabled := btnDisabled v;
                 btnLabel := btnLabel v |}.

(** The part of [resetForm] that changes the sections and the button. *)
Definition resetForm (v : view) : view :=
  {| resultsSection := none;
     errorSection := none;
     loadingSection := none;
     btnDisabled := false;
     btnLabel := Idle;
     errorText := errorText v |}.

Definition sectionsDisplayed (v : view) : nat :=
  shown (loadingSection v) + shown (resultsSection v) + shown (errorSection v).

End ScaleAI.

(** ** Further notions of the statements *)

(** Whenever the error card is displayed, the page is out of the loading
    state. *)
Definition errorOutOfLoading (st : page) : Prop :=
  displayed (errorCard (cards st)) = true ->
  loadingCard (cards st) = none /\ buttonIdle st.



(** The request [analyzeImage] sends for a submission with one input. *)
Definition submission (file : option File) (url : string) : request :=
  {| method := "POST";
     endpoint := API_ENDPOINT;
     body := match file with
             | Some f => [("file", FileValue f)]
             | None => [("image_url", TextValue url)]
             end |}.

(** The property of the response body that carries the server's message:
    [detail] when the status is outside 2xx, [error] otherwise. *)
Definition messageField (status : Z) (body : jsobject) : jsval :=
  if ok status then error body else detail body.

(** The message of the [catch] block for an error that mentions 'fetch'. *)
Definition CONNECTIVITY : string :=
  "Unable to connect to the analysis service. Please check if the backend server is running.".

(** [ls] joined by line breaks and followed by [t]. *)
Definition joinTo (ls : list string) (t : string) : string :=
  fold_right (fun l acc => l ++ nl ++ acc) t ls.

(** The lines of the report once the template is trimmed: all but the
    last, and all. *)
Definition reportBody (reportData : ReportData) (now : Date) : list string :=
  [ "CLAIMCOMPASS DAMAGE ANALYSIS REPORT";
    "Generated: " ++ toLocaleString now;
    "";
    "VEHICLE INFORMATION:";
    "Make: " ++ toString (vehicle_make reportData);
    "Model: " ++ toString (vehicle_model reportData);
    "Color: " ++ toString (vehicle_color reportData);
    "";
    "DAMAGE ASSESSMENT:";
    toString (damage_summary_ reportData);
    "";
    "ESTIMATED REPAIR COST:";
    toString (damage_estimated_cost reportData);
    "";
    "ANALYSIS METHOD:";
    analysis_method reportData;
    "";
    "DISCLAIMER:";
    disclaimer reportData;
    "";
    "---";
    "Report generated by ClaimCompass" ].

Definition reportLines (reportData : ReportData) (now : Date) : list string :=
  (reportBody reportData now ++ ["AI-Powered Insurance Technology Demo"])%list.

(** ** Pages, files, responses and moments of the examples *)

(** The page while an analysis of a URL is in flight. *)
Definition loadingPage : page :=
  run [EvInput "https://example.com/car.jpg"; EvSubmit] initial.

(** An image file and a file that is not an image. *)
Definition carPhoto : File := {| name := "car.jpg"; type := "image/jpeg" |}.
Definition pdfFile : File := {| name := "claim.pdf"; type := "application/pdf" |}.

(** A page with a photo selected and a URL in the URL field. *)
Definition bothPage : page :=
  let st := with_upload initial {| files := [carPhoto]; previewImage_src := "";
                                   filePreview := none; reading := [] |} in
  with_urlBox st {| value := " https://example.com/car.jpg ";
                    urlPreviewImage_src := ""; urlPreview := none;
                    hooked := false |}.

(** A response body that only carries a [detail]. *)
Definition detailOnly (message : string) : jsobject :=
  {| success := JUndefined; make := JUndefined; model := JUndefined;
     color := JUndefined; damage_summary := JUndefined;
     repair_cost_estimate := JUndefined; error := JUndefined;
     detail := JStr message |}.

(** A response body that only carries [detail], of any value. *)
Definition detailOf (v : jsval) : jsobject :=
  {| success := JUndefined; make := JUndefined; model := JUndefined;
     color := JUndefined; damage_summary := JUndefined;
     repair_cost_estimate := JUndefined; error := JUndefined;
     detail := v |}.

(** The endpoint refuses a submitted URL: status 400 and a detail that
    says why. *)
Definition refusedUrl : fetchResult :=
  Response 400 (Parsed (detailOnly "Failed to fetch image from URL")).

(** A URL is typed and submitted, and the endpoint refuses it. *)
Definition refusedRun : list event :=
  [ EvInput "https://example.com/car.jpg"; EvSubmit; EvSettle refusedUrl ].

(** A successful response. *)
Definition camry : jsobject :=
  {| success := JBool true; make := JStr "Toyota"; model := JStr "Camry";
     color := JStr "Silver";
     damage_summary := JStr "Dent in the rear bumper";
     repair_cost_estimate := JStr "$500 - $800";
     error := JUndefined; detail := JUndefined |}.

(** A successful response without a make. *)
Definition noMake : jsobject :=
  {| success := JBool true; make := JUndefined; model := JStr "Camry";
     color := JStr "Silver";
     damage_summary := JStr "Dent in the rear bumper";
     repair_cost_estimate := JStr "$500 - $800";
     error := JUndefined; detail := JUndefined |}.

(** A moment. *)
Definition noon : Date :=
  {| toISOString := "2024-09-23T12:00:00.000Z";
     toLocaleString := "9/23/2024, 12:00:00 PM" |}.

(** The events of an analysis of a URL that the endpoint answers with
    [body], followed by a download of the report. *)
Definition analysisThenDownload (body : jsobject) : list event :=
  [ EvInput "https://example.com/car.jpg"; EvSubmit;
    EvSettle (Response 200 (Parsed body)); EvDownload noon noon noon ].

(** ** Notions of the further properties *)

(** A request as the endpoint expects it: a POST to the analysis endpoint
    whose body has one part, the file under [file] or a text that is not
    empty under [image_url]. *)
Definition singleInput (r : request) : bool :=
  String.eqb (method r) "POST"
  && String.eqb (endpoint r) "/api/analyze"
  && match body r with
     | [(key, FileValue _)] => String.eqb key "file"
     | [(key, TextValue url)] => String.eqb key "image_url" && nonEmpty url
     | _ => false
     end.

Definition isSubmit (e : event) : bool :=
  match e with EvSubmit => true | _ => false end.

(** How many submissions a run holds. *)
Definition submits (es : list event) : nat := length (filter isSubmit es).

(** The events whose handlers do not write the file selection or the URL
    field: all but a file choice, a drop, typing a URL, [previewUrl] and
    [resetForm]. *)
Definition keepsInputs (e : event) : bool :=
  match e with
  | EvChange _ | EvDrop _ | EvInput _ | EvPreviewUrl | EvReset => false
  | _ => true
  end.

(** The results view: the results card alone is displayed. *)
Definition resultsView (st : page) : Prop :=
  resultsCard (cards st) = block /\ errorCard (cards st) = none
  /\ loadingCard (cards st) = none /\ welcomeCard (cards st) = none.

(** The loading view: the loading card alone is displayed and the button is
    disabled with its busy label. *)
Definition loadingView (st : page) : Prop :=
  loadingCard (cards st) = block /\ resultsCard (cards st) = none
  /\ errorCard (cards st) = none /\ welcomeCard (cards st) = none
  /\ disabled (analyzeBtn st) = true
  /\ innerHTML (analyzeBtn st) = "Analyzing...".

(** The button is either busy (disabled, labelled 'Analyzing...', with the
    loading card displayed) or idle (enabled, labelled 'Analyze Damage'). *)
Definition buttonTracksLoading (st : page) : Prop :=
  (disabled (analyzeBtn st) = true
   /\ innerHTML (analyzeBtn st) = "Analyzing..."
   /\ loadingCard (cards st) = block)
  \/ (disabled (analyzeBtn st) = false
      /\ innerHTML (analyzeBtn st) = "Analyze Damage").

(** The form as [resetForm] leaves it: nothing selected, entered, previewed
    or stored. *)
Definition formCleared (st : page) : Prop :=
  files (upload st) = [] /\ previewImage_src (upload st) = ""
  /\ filePreview (upload st) = none
  /\ value (urlBox st) = "" /\ urlPreviewImage_src (urlBox st) = ""
  /\ urlPreview (urlBox st) = none
  /\ currentAnalysisData st = None.



(** Whether a character occurs in a string. *)
Fixpoint occurs (c : ascii) (s : string) : bool :=
  match s with
  | EmptyString => false
  | String a s' => Ascii.eqb a c || occurs c s'
  end.


(** The URL preview has never been set up: [previewUrl] has installed no
    load handlers and the preview is hidden. *)
Definition urlPreviewUnused (st : page) : Prop :=
  hooked (urlBox st) = false /\ urlPreview (urlBox st) = none.

Definition isPreviewUrl (e : event) : bool :=
  match e with EvPreviewUrl => true | _ => false end.

Definition isReaderLoad (e : event) : bool :=
  match e with EvReaderLoad _ => true | _ => false end.

(** The result elements show [data] as [showResults] renders it. *)
Definition rendered (data : jsobject) (t : Texts) : Prop :=
  carMake t = orElse (make data) "Unknown"
  /\ carModel t = orElse (model data) "Unknown"
  /\ carColor t = orElse (color data) "Unknown"
  /\ damageSummary t = orElse (damage_summary data) "No damage assessment available"
  /\ repairCost t = orElse (repair_cost_estimate data) "Unable to estimate".

(** Every displayed view has what it shows: a displayed error card has a
    message that is not empty, a displayed results card shows the stored
    result, and the loading card is displayed only while a request is
    pending. *)
Definition viewsBacked (st : page) : Prop :=
  (displayed (errorCard (cards st)) = true ->
   nonEmpty (errorMessage (texts st)) = true)
  /\ (displayed (resultsCard (cards st)) = true ->
      exists data, currentAnalysisData st = Some data /\ rendered data (texts st))
  /\ (displayed (loadingCard (cards st)) = true -> 0 < pending st).

(** ** The rebranded copy of the script, in full

    The second copy of the controller (the one that names Scale AI): the
    same handlers over three sections in place of the four cards, with its
    own wording, button templates and report. Here the [dragover] class of
    the upload area and the [fade-in] class of the results and error
    sections are part of the page, with the timers that remove the
    latter. *)

Module Rebranded.

(** A double quote, and an HTML attribute [name="value"]. *)
Definition quote : string := String "034"%char "".

Definition attr (name value : string) : string :=
  name ++ "=" ++ quote ++ value ++ quote.

(** The template [showLoading] writes into the button. *)
Definition BUSY : string :=
  unlines
    [ "";
      "        <div " ++ attr "class" "loading-spinner" ++ " "
        ++ attr "style" "width: 16px; height: 16px; margin-right: 8px;"
        ++ "></div>";
      "        <span " ++ attr "class" "btn-text"
        ++ ">Analyzing with Scale AI...</span>";
      "    " ].

(** The template [hideLoading] and [resetForm] write into the button. *)
Definition IDLE : string :=
  unlines
    [ "";
      "        <span " ++ attr "class" "btn-text"
        ++ ">Analyze with Scale AI</span>";
      "        <svg " ++ attr "class" "btn-arrow" ++ " " ++ attr "width" "16"
        ++ " " ++ attr "height" "16" ++ " " ++ attr "viewBox" "0 0 16 16"
        ++ " " ++ attr "fill" "currentColor" ++ ">";
      "            <path "
        ++ attr "d" "M3.204 11L6.5 7.704 3.204 4.408l.592-.592L8 7.716l.592.592-4.796 4.796L3.204 11z"
        ++ "/>";
      "        </svg>";
      "    " ].

(** The three sections, [xSection.style.display], and whether the results
    and error sections carry the [fade-in] class. *)
Record Sections : Type := mkSections {
  loadingSection : display;
  resultsSection : display;
  errorSection : display;
  resultsFadeIn : bool;
  errorFadeIn : bool
}.

Record page : Type := mkPage {
  currentAnalysisData : option jsobject;
  sections : Sections;
  analyzeBtn : Button;
  texts : Texts;
  upload : Upload;
  urlBox : UrlBox;
  dragover : bool;           (* uploadArea carries the class dragover *)
  posted : list request;     (* the requests of analyzeImage, latest first *)
  pending : nat;             (* requests not yet settled *)
  saved : list download;     (* every download triggered, latest first *)
  resultsTimers : nat;       (* pending removals of fade-in, results section *)
  errorTimers : nat          (* pending removals of fade-in, error section *)
}.

Definition with_data (st : page) (d : option jsobject) : page :=
  mkPage d (sections st) (analyzeBtn st) (texts st) (upload st) (urlBox st)
         (dragover st) (posted st) (pending st) (saved st)
         (resultsTimers st) (errorTimers st).

Definition with_sections (st : page) (s : Sections) : page :=
  mkPage (currentAnalysisData st) s (analyzeBtn st) (texts st) (upload st)
         (urlBox st) (dragover st) (posted st) (pending st) (saved st)
         (resultsTimers st) (errorTimers st).

Definition with_button (st : page) (b : Button) : page :=
  mkPage (currentAnalysisData st) (sections st) b (texts st) (upload st)
         (urlBox st) (dragover st) (posted st) (pending st) (saved st)
         (resultsTimers st) (errorTimers st).

Definition with_texts (st : page) (t : Texts) : page :=
  mkPage (currentAnalysisData st) (sections st) (analyzeBtn st) t (upload st)
         (urlBox st) (dragover st) (posted st) (pending st) (saved st)
         (resultsTimers st) (errorTimers st).

Definition with_upload (st : page) (u : Upload) : page :=
  mkPage (currentAnalysisData st) (sections st) (analyzeBtn st) (texts st) u
         (urlBox st) (dragover st) (posted st) (pending st) (saved st)
         (resultsTimers st) (errorTimers st).

Definition with_urlBox (st : page) (u : UrlBox) : page :=
  mkPage (currentAnalysisData st) (sections st) (analyzeBtn st) (texts st)
         (upload st) u (dragover st) (posted st) (pending st) (saved st)
         (resultsTimers st) (errorTimers st).

Definition with_dragover (st : page) (b : bool) : page :=
  mkPage (currentAnalysisData st) (sections st) (analyzeBtn st) (texts st)
         (upload st) (urlBox st) b (posted st) (pending st) (saved st)
         (resultsTimers st) (errorTimers st).

Definition with_fetch (st : page) (r : request) : page :=
  mkPage (currentAnalysisData st) (sections st) (analyzeBtn st) (texts st)
         (upload st) (urlBox st) (dragover st) (r :: posted st)
         (S (pending st)) (saved st) (resultsTimers st) (errorTimers st).

Definition with_settled (st : page) : page :=
  mkPage (currentAnalysisData st) (sections st) (analyzeBtn st) (texts st)
         (upload st) (urlBox st) (dragover st) (posted st)
         (pred (pending st)) (saved st) (resultsTimers st) (errorTimers st).

Definition with_download (st : page) (d : download) : page :=
  mkPage (currentAnalysisData st) (sections st) (analyzeBtn st) (texts st)
         (upload st) (urlBox st) (dragover st) (posted st) (pending st)
         (d :: saved st) (resultsTimers st) (errorTimers st).

(** [setTimeout(..., 500)] of [showResults] and of [showError]. *)
Definition with_resultsTimer (st : page) : page :=
  mkPage (currentAnalysisData st) (sections st) (analyzeBtn st) (texts st)
         (upload st) (urlBox st) (dragover st) (posted st) (pending st)
         (saved st) (S (resultsTimers st)) (errorTimers st).

Definition with_errorTimer (st : page) : page :=
  mkPage (currentAnalysisData st) (sections st) (analyzeBtn st) (texts st)
         (upload st) (urlBox st) (dragover st) (posted st) (pending st)
         (saved st) (resultsTimers st) (S (errorTimers st)).

(** *** View transitions *)

Definition showLoading (st : page) : page :=
  let s := sections st in
  let st := with_sections st {| resultsSection := none;
                                errorSection := none;
                                loadingSection := flex;
                                resultsFadeIn := resultsFadeIn s;
                                errorFadeIn := errorFadeIn s |} in
  with_button st {| disabled := true; innerHTML := BUSY |}.

Definition hideLoading (st : page) : page :=
  let s := sections st in
  let st := with_sections st {| loadingSection := none;
                                resultsSection := resultsSection s;
                                errorSection := errorSection s;
                                resultsFadeIn := resultsFadeIn s;
                                errorFadeIn := errorFadeIn s |} in
  with_button st {| disabled := false; innerHTML := IDLE |}.

Definition showResults (data : jsobject) (st : page) : page :=
  let st := with_texts st
    {| carMake := orElse (make data) "Unknown";
       carModel := orElse (model data) "Unknown";
       carColor := orElse (color data) "Unknown";
       damageSummary := orElse (damage_summary data) "No damage assessment available";
       repairCost := orElse (repair_cost_estimate data) "Unable to estimate";
       errorMessage := errorMessage (texts st) |} in
  let s := sections st in
  let st := with_sections st {| loadingSection := none;
                                errorSection := none;
                                resultsSection := block;
                                resultsFadeIn := true;
                                errorFadeIn := errorFadeIn s |} in
  with_resultsTimer st.

(** The timer of [showResults] fires. *)
Definition resultsTimeout (st : page) : page :=
  let s := sections st in
  mkPage (currentAnalysisData st)
         {| resultsFadeIn := false;
            loadingSection := loadingSection s;
            resultsSection := resultsSection s;
            errorSection := errorSection s;
            errorFadeIn := errorFadeIn s |}
         (analyzeBtn st) (texts st) (upload st) (urlBox st) (dragover st)
         (posted st) (pending st) (saved st)
         (pred (resultsTimers st)) (errorTimers st).

Definition showError (message : string) (st : page) : page :=
  let t := texts st in
  let st := with_texts st
    {| errorMessage := message;
       carMake := carMake t; carModel := carModel t; carColor := carColor t;
       damageSummary := damageSummary t; repairCost := repairCost t |} in
  let s := sections st in
  let st := with_sections st {| loadingSection := none;
                                resultsSection := none;
                                errorSection := flex;
                                errorFadeIn := true;
                                resultsFadeIn := resultsFadeIn s |} in
  let st := with_errorTimer st in
  hideLoading st.

(** The timer of [showError] fires. *)
Definition errorTimeout (st : page) : page :=
  let s := sections st in
  mkPage (currentAnalysisData st)
         {| errorFadeIn := false;
            loadingSection := loadingSection s;
            resultsSection := resultsSection s;
            errorSection := errorSection s;
            resultsFadeIn := resultsFadeIn s |}
         (analyzeBtn st) (texts st) (upload st) (urlBox st) (dragover st)
         (posted st) (pending st) (saved st)
         (resultsTimers st) (pred (errorTimers st)).

(** *** Input handlers *)

Definition handleDragOver (st : page) : page := with_dragover st true.

(** [inside] is [uploadArea.contains(event.relatedTarget)]. *)
Definition handleDragLeave (inside : bool) (st : page) : page :=
  if negb inside then with_dragover st false else st.

Definition clearFile (st : page) : page :=
  with_upload st {| files := [];
                    filePreview := none;
                    previewImage_src := "";
                    reading := reading (upload st) |}.

Definition clearUrl (st : page) : page :=
  with_urlBox st {| value := "";
                    urlPreview := none;
                    urlPreviewImage_src := "";
                    hooked := hooked (urlBox st) |}.

Definition clearFileWhenUrlEntered (st : page) : page :=
  if nonEmpty (trim (value (urlBox st))) then clearFile st else st.

Definition previewFile (file : File) (st : page) : page :=
  if negb (startsWith (type file) "image/") then
    showError "Please select an image file (JPG, PNG)" st
  else
    let u := upload st in
    with_upload st {| reading := file :: reading u;
                      files := files u;
                      previewImage_src := previewImage_src u;
                      filePreview := filePreview u |}.

Definition readerOnload (result : string) (st : page) : page :=
  let u := upload st in
  with_upload st {| previewImage_src := result;
                    filePreview := block;
                    files := files u;
                    reading := tl (reading u) |}.

Definition handleFileSelect (st : page) : page :=
  match files (upload st) with
  | file :: _ => previewFile file (clearUrl st)
  | [] => st
  end.

Definition handleDrop (dropped : list File) (st : page) : page :=
  let st := with_dragover st false in
  match dropped with
  | file :: _ =>
      if startsWith (type file) "image/" then
        let u := upload st in
        let st := with_upload st {| files := dropped;
                                    previewImage_src := previewImage_src u;
                                    filePreview := filePreview u;
                                    reading := reading u |} in
        previewFile file (clearUrl st)
      else
        showError "Please drop an image file (JPG, PNG)" st
  | [] => st
  end.

Definition previewUrl (st : page) : page :=
  let url := trim (value (urlBox st)) in
  if negb (nonEmpty url) then
    showError "Please enter an image URL" st
  else
    let st := clearFile st in
    with_urlBox st {| urlPreviewImage_src := url;
                      hooked := true;
                      value := value (urlBox st);
                      urlPreview := urlPreview (urlBox st) |}.

Definition urlPreviewImage_onload (st : page) : page :=
  let u := urlBox st in
  with_urlBox st {| urlPreview := block;
                    value := value u;
                    urlPreviewImage_src := urlPreviewImage_src u;
                    hooked := hooked u |}.

Definition urlPreviewImage_onerror (st : page) : page :=
  let st := showError
    "Unable to load image from URL. Please verify the URL is accessible." st in
  let u := urlBox st in
  with_urlBox st {| urlPreview := none;
                    value := value u;
                    urlPreviewImage_src := urlPreviewImage_src u;
                    hooked := hooked u |}.

(** [handleFormKeyDown]: whether it calls [preventDefault], from
    [event.key] and [event.target.tagName]. *)
Definition handleFormKeyDown (key tagName : string) : bool :=
  String.eqb key "Enter"
  && negb (String.eqb tagName "INPUT")
  && negb (String.eqb tagName "TEXTAREA").

(** [handleUploadAreaClick]: whether it opens the file dialog
    ([fileInput.click()]); [onArea] is [event.target === uploadArea] and
    [inside] is [uploadArea.contains(event.target)]. *)
Definition handleUploadAreaClick (onArea inside : bool) : bool :=
  onArea || inside.

(** *** Analysis *)

(** The state a [try] block ends in, normally or by a throw. *)
Inductive completion : Type :=
| Normal (st : page)
| Throw (message : string) (st : page).

Definition analyzeImage_request (file : option File) (url : string)
    (st : page) : page :=
  let st := showLoading st in
  let formData := [] in
  let formData :=
    match file with
    | Some f => (formData ++ [("file", FileValue f)])%list
    | None => formData
    end in
  let formData :=
    if nonEmpty url then (formData ++ [("image_url", TextValue url)])%list
    else formData in
  with_fetch st {| method := "POST"; endpoint := API_ENDPOINT; body := formData |}.

Definition analyzeImage_try (r : fetchResult) (st : page) : completion :=
  match r with
  | Rejected message => Throw message st
  | Response status json =>
      if negb (ok status) then
        match json with
        | Unparsable message => Throw message st
        | Parsed errorData =>
            Throw (orElse (detail errorData) "Analysis failed") st
        end
      else
        match json with
        | Unparsable message => Throw message st
        | Parsed data =>
            if truthy (success data) then
              let st := with_data st (Some data) in
              Normal (showResults data st)
            else
              Throw (orElse (error data) "Analysis failed - please try again") st
        end
  end.

Definition analyzeImage_catch (message : string) (st : page) : page :=
  if includes message "fetch" then
    showError "Unable to connect to Scale AI services. Please check your connection and try again." st
  else
    showError (if nonEmpty message then message
               else "Failed to analyze image. Please try again.") st.

Definition analyzeImage_settle (r : fetchResult) (st : page) : page :=
  let st :=
    match analyzeImage_try r st with
    | Normal st => st
    | Throw message st => analyzeImage_catch message st
    end in
  hideLoading st.

Definition handleFormSubmit (st : page) : page :=
  let file := hd_error (files (upload st)) in
  let url := trim (value (urlBox st)) in
  if negb (given file) && negb (nonEmpty url) then
    showError "Please upload an image file or enter an image URL to analyze" st
  else if given file && nonEmpty url then
    showError "Please provide either a file or URL, not both" st
  else
    analyzeImage_request file url st.

Definition resetForm (st : page) : page :=
  let st := clearFile st in
  let st := clearUrl st in
  let st := with_data st None in
  let s := sections st in
  let st := with_sections st {| resultsSection := none;
                                errorSection := none;
                                loadingSection := none;
                                resultsFadeIn := resultsFadeIn s;
                                errorFadeIn := errorFadeIn s |} in
  with_button st {| disabled := false; innerHTML := IDLE |}.

(** *** The report *)

Record ReportData : Type := mkReportData {
  timestamp : string;
  service : string;
  vehicle_make : jsval;
  vehicle_model : jsval;
  vehicle_color : jsval;
  damage_summary_ : jsval;
  damage_estimated_cost : jsval;
  analysis_method : string;
  disclaimer : string
}.

Definition makeReportData (data : jsobject) (now : Date) : ReportData :=
  {| timestamp := toISOString now;
     service := "Scale AI Car Damage Analysis";
     vehicle_make := make data;
     vehicle_model := model data;
     vehicle_color := color data;
     damage_summary_ := damage_summary data;
     damage_estimated_cost := repair_cost_estimate data;
     analysis_method := "AI-powered analysis using Scale AI and OpenAI GPT-4o";
     disclaimer := DISCLAIMER |}.

(** The template literal, line by line, before [.trim()]; [now2] gives the
    local time of the second line and [now3] the ISO time of the last. *)
Definition reportTemplate (reportData : ReportData) (now2 now3 : Date)
    : list string :=
  [ "";
    "SCALE AI - VEHICLE DAMAGE ANALYSIS REPORT";
    "Generated: " ++ toLocaleString now2;
    "";
    "ANALYSIS SERVICE:";
    service reportData;
    "";
    "VEHICLE INFORMATION:";
    "Make: " ++ toString (vehicle_make reportData);
    "Model: " ++ toString (vehicle_model reportData);
    "Color: " ++ toString (vehicle_color reportData);
    "";
    "DAMAGE ASSESSMENT:";
    toString (damage_summary_ reportData);
    "";
    "ESTIMATED REPAIR COST:";
    toString (damage_estimated_cost reportData);
    "";
    "ANALYSIS METHOD:";
    analysis_method reportData;
    "";
    "IMPORTANT DISCLAIMER:";
    disclaimer reportData;
    "";
    "ABOUT SCALE AI:";
    "Scale delivers breakthrough AI from data to deployment, powering ";
    "the next generation of AI applications for enterprises and governments.";
    "";
    "---";
    "Report generated by Scale AI Car Damage Analysis";
    toISOString now3;
    "    " ].

Definition reportText (reportData : ReportData) (now2 now3 : Date) : string :=
  trim (unlines (reportTemplate reportData now2 now3)).

Definition reportName (now : Date) : string :=
  "Scale_AI_Vehicle_Analysis_"
  ++ replaceAll ":"%char "-"%char (slice0 19 (toISOString now))
  ++ ".txt".

(** [now1] to [now4] are the four [new Date()] of the function, in the
    order it creates them. *)
Definition downloadReport (now1 now2 now3 now4 : Date) (st : page) : page :=
  match currentAnalysisData st with
  | None => showError "No analysis data available to download" st
  | Some data =>
      let reportData := makeReportData data now1 in
      with_download st {| blobText := reportText reportData now2 now3;
                          blobType := "text/plain";
                          fileName := reportName now4 |}
  end.

(** *** The event loop *)

(** The tasks that run code of the copy: the events of the listeners it
    registers, its callbacks and timers, and the calls of [previewUrl],
    [resetForm] and [downloadReport] that the page makes. The copy also
    exports [analyzeImage] in [window.ScaleAI] for tests; a call of it from
    another script is not among these events. *)
Inductive event : Type :=
| EvChange (selected : list File)
| EvDrop (dropped : list File)
| EvDragOver
| EvDragLeave (inside : bool)
| EvInput (text : string)
| EvSubmit
| EvSettle (r : fetchResult)
| EvReaderLoad (result : string)
| EvPreviewUrl
| EvImageLoad
| EvImageError
| EvReset
| EvDownload (now1 now2 now3 now4 : Date)
| EvOffline
| EvResultsTimeout
| EvErrorTimeout.

Definition handle (e : event) (st : page) : page :=
  match e with
  | EvChange selected =>
      let u := upload st in
      handleFileSelect
        (with_upload st {| files := selected;
                           previewImage_src := previewImage_src u;
                           filePreview := filePreview u;
                           reading := reading u |})
  | EvDrop dropped => handleDrop dropped st
  | EvDragOver => handleDragOver st
  | EvDragLeave inside => handleDragLeave inside st
  | EvInput text =>
      let u := urlBox st in
      clearFileWhenUrlEntered
        (with_urlBox st {| value := text;
                           urlPreviewImage_src := urlPreviewImage_src u;
                           urlPreview := urlPreview u;
                           hooked := hooked u |})
  | EvSubmit => handleFormSubmit st
  | EvSettle r => analyzeImage_settle r (with_settled st)
  | EvReaderLoad result => readerOnload result st
  | EvPreviewUrl => previewUrl st
  | EvImageLoad => if hooked (urlBox st) then urlPreviewImage_onload st else st
  | EvImageError => if hooked (urlBox st) then urlPreviewImage_onerror st else st
  | EvReset => resetForm st
  | EvDownload now1 now2 now3 now4 => downloadReport now1 now2 now3 now4 st
  | EvOffline =>
      showError "No internet connection. Please check your network and try again." st
  | EvResultsTimeout => resultsTimeout st
  | EvErrorTimeout => errorTimeout st
  end.

(** The page after a sequence of events, first event first. *)
Definition run (es : list event) (st : page) : page :=
  fold_left (fun st e => handle e st) es st.

(** Modelled from the spec: the page as its markup (not part of the
    script) first shows it: no section displayed, nothing selected,
    entered, requested, stored or scheduled. *)
Definition initial : page :=
  {| currentAnalysisData := None;
     sections := {| loadingSection := none; resultsSection := none;
                    errorSection := none; resultsFadeIn := false;
                    errorFadeIn := false |};
     analyzeBtn := {| disabled := false; innerHTML := IDLE |};
     texts := {| carMake := ""; carModel := ""; carColor := "";
                 damageSummary := ""; repairCost := ""; errorMessage := "" |};
     upload := {| files := []; previewImage_src := ""; filePreview := none;
                  reading := [] |};
     urlBox := {| value := ""; urlPreviewImage_src := ""; urlPreview := none;
                  hooked := false |};
     dragover := false;
     posted := [];
     pending := 0;
     saved := [];
     resultsTimers := 0;
     errorTimers := 0 |}.

(** *** Notions of the statements *)

Definition sectionsDisplayed (st : page) : nat :=
  shown (loadingSection (sections st)) + shown (resultsSection (sections st))
  + shown (errorSection (sections st)).

(** An animation class is on a section only while a timer that removes it
    is pending. *)
Definition fadeInExpires (st : page) : Prop :=
  (resultsFadeIn (sections st) = true -> 0 < resultsTimers st)
  /\ (errorFadeIn (sections st) = true -> 0 < errorTimers st).

(** The lines of the report once the template is trimmed, all but the
    last. *)
Definition reportBody (reportData : ReportData) (now2 : Date) : list string :=
  [ "SCALE AI - VEHICLE DAMAGE ANALYSIS REPORT";
    "Generated: " ++ toLocaleString now2;
    "";
    "ANALYSIS SERVICE:";
    service reportData;
    "";
    "VEHICLE INFORMATION:";
    "Make: " ++ toString (vehicle_make reportData);
    "Model: " ++ toString (vehicle_model reportData);
    "Color: " ++ toString (vehicle_color reportData);
    "";
    "DAMAGE ASSESSMENT:";
    toString (damage_summary_ reportData);
    "";
    "ESTIMATED REPAIR COST:";
    toString (damage_estimated_cost reportData);
    "";
    "ANALYSIS METHOD:";
    analysis_method reportData;
    "";
    "IMPORTANT DISCLAIMER:";
    disclaimer reportData;
    "";
    "ABOUT SCALE AI:";
    "Scale delivers breakthrough AI from data to deployment, powering ";
    "the next generation of AI applications for enterprises and governments.";
    "";
    "---";
    "Report generated by Scale AI Car Damage Analysis" ].

End Rebranded.

(** ** The two copies side by side *)

(** The event of the original script that a task of the copy corresponds
    to; the drag highlight and the animation timers have no counterpart in
    the model of the original. A download of the copy reads the clock once
    more. *)
Definition original (e : Rebranded.event) : option event :=
  match e with
  | Rebranded.EvChange selected => Some (EvChange selected)
  | Rebranded.EvDrop dropped => Some (EvDrop dropped)
  | Rebranded.EvInput text => Some (EvInput text)
  | Rebranded.EvSubmit => Some EvSubmit
  | Rebranded.EvSettle r => Some (EvSettle r)
  | Rebranded.EvReaderLoad result => Some (EvReaderLoad result)
  | Rebranded.EvPreviewUrl => Some EvPreviewUrl
  | Rebranded.EvImageLoad => Some EvImageLoad
  | Rebranded.EvImageError => Some EvImageError
  | Rebranded.EvReset => Some EvReset
  | Rebranded.EvDownload now1 now2 _ now4 => Some (EvDownload now1 now2 now4)
  | Rebranded.EvOffline => Some EvOffline
  | Rebranded.EvDragOver
  | Rebranded.EvDragLeave _
  | Rebranded.EvResultsTimeout
  | Rebranded.EvErrorTimeout => None
  end.

(** The original page after the tasks of the copy that it has too. *)
Fixpoint runOriginal (es : list Rebranded.event) (st : page) : page :=
  match es with
  | [] => st
  | e :: es' =>
      runOriginal es'
        match original e with
        | Some e' => handle e' st
        | None => st
        end
  end.

(** What the two copies share: the stored result, both inputs with their
    previews, the requests, the rendered result fields, whether the
    results and the error element are displayed, whether the button is
    disabled, and how many files were saved. *)
Definition agree (o : page) (c : Rebranded.page) : Prop :=
  currentAnalysisData o = Rebranded.currentAnalysisData c
  /\ upload o = Rebranded.upload c
  /\ urlBox o = Rebranded.urlBox c
  /\ posted o = Rebranded.posted c
  /\ pending o = Rebranded.pending c
  /\ carMake (texts o) = carMake (Rebranded.texts c)
  /\ carModel (texts o) = carModel (Rebranded.texts c)
  /\ carColor (texts o) = carColor (Rebranded.texts c)
  /\ damageSummary (texts o) = damageSummary (Rebranded.texts c)
  /\ repairCost (texts o) = repairCost (Rebranded.texts c)
  /\ resultsCard (cards o) = Rebranded.resultsSection (Rebranded.sections c)
  /\ displayed (errorCard (cards o))
     = displayed (Rebranded.errorSection (Rebranded.sections c))
  /\ disabled (analyzeBtn o) = disabled (Rebranded.analyzeBtn c)
  /\ length (saved o) = length (Rebranded.saved c).

(** The events of the original script that a run of the copy corresponds
    to. *)
Definition originals (es : list Rebranded.event) : list event :=
  flat_map (fun e => match original e with
                     | Some e' => [e']
                     | None => []
                     end) es.

(** A page of the original script that agrees with a page of the copy: the
    same elements, the three sections as the cards of the same name. *)
Definition asOriginal (c : Rebranded.page) : page :=
  {| currentAnalysisData := Rebranded.currentAnalysisData c;
     cards := {| welcomeCard := none;
                 loadingCard := Rebranded.loadingSection (Rebranded.sections c);
                 resultsCard := Rebranded.resultsSection (Rebranded.sections c);
                 errorCard := Rebranded.errorSection (Rebranded.sections c) |};
     analyzeBtn := Rebranded.analyzeBtn c;
     texts := Rebranded.texts c;
     upload := Rebranded.upload c;
     urlBox := Rebranded.urlBox c;
     posted := Rebranded.posted c;
     pending := Rebranded.pending c;
     saved := Rebranded.saved c |}.

(** * Properties *)

(** ** Strings *)

Section StringFacts.

Lemma prefix_app (p b : string) : String.prefix p (p ++ b) = true.
Proof.
  induction p as [|c p IH]; simpl.
  - destruct b; reflexivity.
  - destruct (ascii_dec c c) as [_|ne]; [exact IH | now elim ne].
Qed.

Lemma prefix_elim (p s : string) :
  String.prefix p s = true -> exists b, s = p ++ b.
Proof.
  revert s; induction p as [|c p IH]; intros s H.
  - exists s; reflexivity.
  - destruct s as [|d s]; simpl in H; [discriminate|].
    destruct (ascii_dec c d) as [->|]; [|discriminate].
    destruct (IH _ H) as [b ->]. exists b; reflexivity.
Qed.

Lemma includes_prefix (s p : string) :
  String.prefix p s = true -> includes s p = true.
Proof. destruct s; simpl; intros ->; reflexivity. Qed.

Lemma includes_here (p b : string) : includes (p ++ b) p = true.
Proof. apply includes_prefix, prefix_app. Qed.

Lemma includes_app (a p b : string) : includes (a ++ p ++ b) p = true.
Proof.
  induction a as [|c a IH].
  - change ("" ++ p ++ b) with (p ++ b). apply includes_here.
  - simpl. rewrite IH. apply orb_true_r.
Qed.

Lemma includes_elim (s p : string) :
  includes s p = true -> exists a b, s = a ++ p ++ b.
Proof.
  induction s as [|c s IH]; intros H; cbn [includes] in H.
  - rewrite orb_false_r in H. destruct (prefix_elim _ _ H) as [b E].
    exists "", b. exact E.
  - apply orb_true_iff in H. destruct H as [H|H].
    + destruct (prefix_elim _ _ H) as [b E]. exists "", b. exact E.
    + destruct (IH H) as (a & b & ->). exists (String c a), b. reflexivity.
Qed.

Lemma nonEmpty_true (s : string) : nonEmpty s = true <-> s <> "".
Proof. destruct s; simpl; split; congruence. Qed.

Lemma nonEmpty_false (s : string) : nonEmpty s = false <-> s = "".
Proof. destruct s; simpl; split; congruence. Qed.

(** [trimEnd] leaves alone what stands before a part it does not erase. *)
Lemma trimEnd_app (a b : string) :
  trimEnd b <> "" -> trimEnd (a ++ b) = a ++ trimEnd b.
Proof.
  intros H. induction a as [|c a IH]; simpl; [reflexivity|].
  rewrite IH. destruct (a ++ trimEnd b) eqn:E; [|reflexivity].
  destruct a; simpl in E; [contradiction | discriminate].
Qed.

Lemma trimEnd_app_nonEmpty (a b : string) :
  trimEnd b <> "" -> trimEnd (a ++ b) <> "".
Proof.
  intros H. rewrite trimEnd_app by exact H.
  destruct a; simpl; [exact H | discriminate].
Qed.

Lemma app_assoc_string (a b c : string) : (a ++ b) ++ c = a ++ b ++ c.
Proof. induction a; simpl; congruence. Qed.

End StringFacts.

(* Proofs about the page do not look inside these. *)
Arguments trim : simpl never.
Arguments includes : simpl never.
Arguments reportText : simpl never.
Arguments reportName : simpl never.

(** ** What each function leaves untouched *)

(** Unfolds the script's functions and the record updates, leaving the
    string and value primitives folded. *)
Ltac run_page :=
  lazy beta iota zeta delta
    -[trim includes reportText reportName startsWith nonEmpty truthy toString
      orElse ok List.app String.append Nat.add Nat.sub Nat.pred List.tl
      List.hd_error] in *.

(** Splits on every test the goal still branches on, innermost first. *)
Ltac split_tests :=
  repeat match goal with
         | |- context [match ?x with _ => _ end] =>
             lazymatch x with
             | context [match _ with _ => _ end] => fail
             | _ => destruct x eqn:?; run_page
             end
         end.

(** Names the properties of every page in the context. *)
Ltac open_pages :=
  repeat match goal with
         | st : page |- _ =>
             destruct st as [? [? ? ? ?] [? ?] [? ? ? ? ? ?] [? ? ? ?] [? ? ? ?] ? ? ?]
         end.

Ltac page_cases := intros; open_pages; run_page; split_tests.

Section Frames.

Variable st : page.

Lemma showError_spec (message : string) :
  let st' := showError message st in
  errorView st' /\ buttonIdle st'
  /\ errorMessage (texts st') = message
  /\ currentAnalysisData st' = currentAnalysisData st
  /\ upload st' = upload st /\ urlBox st' = urlBox st
  /\ posted st' = posted st /\ pending st' = pending st
  /\ saved st' = saved st.
Proof. run_page. intuition. Qed.

Lemma hideLoading_spec :
  let st' := hideLoading st in
  loadingCard (cards st') = none /\ buttonIdle st'
  /\ welcomeCard (cards st') = welcomeCard (cards st)
  /\ resultsCard (cards st') = resultsCard (cards st)
  /\ errorCard (cards st') = errorCard (cards st)
  /\ texts st' = texts st
  /\ currentAnalysisData st' = currentAnalysisData st
  /\ posted st' = posted st /\ saved st' = saved st.
Proof. run_page. intuition. Qed.

End Frames.

(** ** Runs *)

Lemma run_nil (st : page) : run [] st = st.
Proof. reflexivity. Qed.

Lemma run_cons (e : event) (es : list event) (st : page) :
  run (e :: es) st = run es (handle e st).
Proof. reflexivity. Qed.

Lemma run_snoc (es : list event) (e : event) (st : page) :
  run (es ++ [e]) st = handle e (run es st).
Proof. unfold run. rewrite fold_left_app. reflexivity. Qed.

(** A property every event preserves holds along every run. *)
Lemma run_invariant (P : page -> Prop) :
  (forall e st, P st -> P (handle e st)) ->
  forall es st, P st -> P (run es st).
Proof.
  intros step es. induction es as [|e es IH]; intros st H.
  - exact H.
  - rewrite run_cons. apply IH, step, H.
Qed.

(** ** The view *)

Lemma errorOutOfLoading_step (e : event) (st : page) :
  errorOutOfLoading st -> errorOutOfLoading (handle e st).
Proof.
  intros Inv. destruct e; page_cases; intros; try discriminate; auto.
Qed.








(** Outside that condition: [resetForm] does not write the loading card, so
    called while it is displayed it leaves it displayed beside the welcome
    card. *)
Lemma resetForm_keeps_loading_card (st : page) :
  loadingCard (cards (resetForm st)) = loadingCard (cards st)
  /\ cardsDisplayed (resetForm st) = 1 + shown (loadingCard (cards st)).
Proof. split; page_cases; reflexivity. Qed.

(** The rebranded copy hides the loading section in [showResults] and in
    [resetForm] themselves: there every view transition leaves at most one
    section displayed. *)
Lemma ScaleAI_sections_exclusive (v : ScaleAI.view) :
  ScaleAI.sectionsDisplayed (ScaleAI.showLoading v) = 1
  /\ ScaleAI.sectionsDisplayed (ScaleAI.showResults v) = 1
  /\ (forall message, ScaleAI.sectionsDisplayed (ScaleAI.showError message v) = 1)
  /\ ScaleAI.sectionsDisplayed (ScaleAI.resetForm v) = 0.
Proof. repeat split. Qed.

(** C10: [showError] ends with [hideLoading], so after it the loading card
    is hidden and the analyze button is enabled with its idle label,
    whatever the page was; and along every run of events from a page where
    this holds, whenever the error card is displayed the loading card is
    hidden and the button is enabled with its idle label. *)
Theorem C10_showError_leaves_loading_state :
  (forall message st,
      showError message st = hideLoading (showError message st)
      /\ loadingCard (cards (showError message st)) = none
      /\ errorCard (cards (showError message st)) = block
      /\ disabled (analyzeBtn (showError message st)) = false
      /\ innerHTML (analyzeBtn (showError message st)) = "Analyze Damage")
  /\ (forall es st,
        errorOutOfLoading st ->
        displayed (errorCard (cards (run es st))) = true ->
        loadingCard (cards (run es st)) = none
        /\ disabled (analyzeBtn (run es st)) = false
        /\ innerHTML (analyzeBtn (run es st)) = "Analyze Damage").
Proof.
  split.
  - intros message st. run_page. repeat split.
  - intros es st Inv Err.
    pose proof (run_invariant errorOutOfLoading errorOutOfLoading_step es st Inv) as H.
    destruct (H Err) as [L [D I]]. auto.
Qed.

(** A use of C10: submitting the untouched form ends in the error view with
    the loading card hidden and the button idle. *)
Lemma C10_showError_leaves_loading_state_witness :
  loadingCard (cards (run [EvSubmit] initial)) = none
  /\ disabled (analyzeBtn (run [EvSubmit] initial)) = false
  /\ innerHTML (analyzeBtn (run [EvSubmit] initial)) = "Analyze Damage".
Proof.
  apply (proj2 C10_showError_leaves_loading_state [EvSubmit] initial).
  - intros H. discriminate H.
  - reflexivity.
Defined.

(** ** Requests *)

(** Only a submission issues a request. *)
Lemma posted_only_by_submit (e : event) (st : page) :
  e <> EvSubmit -> posted (handle e st) = posted st.
Proof.
  intros ne. destruct e; try congruence; page_cases; reflexivity.
Qed.

Lemma list_cons_neq {A : Type} (x : A) (l : list A) : x :: l <> l.
Proof.
  intros E. apply (f_equal (@List.length A)) in E. simpl in E. lia.
Qed.

Lemma submit_both (st : page) :
  given (selectedFile st) = true -> enteredUrl st <> "" ->
  handleFormSubmit st
  = showError "Please provide either a file or URL, not both" st.
Proof.
  intros F U. apply nonEmpty_true in U. unfold handleFormSubmit.
  fold (selectedFile st). fold (enteredUrl st). rewrite F, U. reflexivity.
Qed.

Lemma submit_neither (st : page) :
  given (selectedFile st) = false -> enteredUrl st = "" ->
  handleFormSubmit st
  = showError "Please upload an image file or enter an image URL" st.
Proof.
  intros F U. apply nonEmpty_false in U. unfold handleFormSubmit.
  fold (selectedFile st). fold (enteredUrl st). rewrite F, U. reflexivity.
Qed.

Lemma submit_one (st : page) :
  xorb (given (selectedFile st)) (nonEmpty (enteredUrl st)) = true ->
  handleFormSubmit st
  = analyzeImage_request (selectedFile st) (enteredUrl st) st.
Proof.
  intros X. unfold handleFormSubmit.
  fold (selectedFile st). fold (enteredUrl st).
  destruct (given (selectedFile st)), (nonEmpty (enteredUrl st));
    try discriminate X; reflexivity.
Qed.

Lemma request_posted (file : option File) (url : string) (st : page) :
  xorb (given file) (nonEmpty url) = true ->
  posted (analyzeImage_request file url st) = submission file url :: posted st.
Proof.
  unfold analyzeImage_request, submission.
  destruct file as [f|], (nonEmpty url); intros X; try discriminate X;
    reflexivity.
Qed.

(** C1: [handleFormSubmit] with a file selected and a URL entered (the
    trimmed text of the URL field is not empty) shows 'Please provide either
    a file or URL, not both'; with no file and no URL it shows 'Please
    upload an image file or enter an image URL'; in both cases the page
    ends in the error view and no request is issued. A request is issued
    exactly when one of the two is present: then the submission goes to
    [analyzeImage], which issues one POST to the analysis endpoint carrying
    that one input. *)
Theorem C1_submit_needs_exactly_one_input (st : page) :
  (given (selectedFile st) = true -> enteredUrl st <> "" ->
     handleFormSubmit st
       = showError "Please provide either a file or URL, not both" st
     /\ errorMessage (texts (handleFormSubmit st))
        = "Please provide either a file or URL, not both"
     /\ errorView (handleFormSubmit st)
     /\ posted (handleFormSubmit st) = posted st)
  /\ (given (selectedFile st) = false -> enteredUrl st = "" ->
     handleFormSubmit st
       = showError "Please upload an image file or enter an image URL" st
     /\ errorMessage (texts (handleFormSubmit st))
        = "Please upload an image file or enter an image URL"
     /\ errorView (handleFormSubmit st)
     /\ posted (handleFormSubmit st) = posted st)
  /\ ((exists r, posted (handleFormSubmit st) = r :: posted st)
      <-> xorb (given (selectedFile st)) (nonEmpty (enteredUrl st)) = true)
  /\ (xorb (given (selectedFile st)) (nonEmpty (enteredUrl st)) = true ->
     handleFormSubmit st
       = analyzeImage_request (selectedFile st) (enteredUrl st) st
     /\ posted (handleFormSubmit st)
        = submission (selectedFile st) (enteredUrl st) :: posted st).
Proof.
  destruct (showError_spec st "Please provide either a file or URL, not both")
    as (V1 & _ & M1 & _ & _ & _ & P1 & _).
  destruct (showError_spec st "Please upload an image file or enter an image URL")
    as (V2 & _ & M2 & _ & _ & _ & P2 & _).
  split; [|split; [|split]].
  - intros F U. rewrite (submit_both st F U). auto.
  - intros F U. rewrite (submit_neither st F U). auto.
  - split.
    + intros [r E]. destruct (given (selectedFile st)) eqn:F;
        destruct (nonEmpty (enteredUrl st)) eqn:U; try reflexivity; exfalso.
      * apply nonEmpty_true in U. rewrite (submit_both st F U), P1 in E.
        exact (list_cons_neq _ _ (eq_sym E)).
      * apply nonEmpty_false in U. rewrite (submit_neither st F U), P2 in E.
        exact (list_cons_neq _ _ (eq_sym E)).
    + intros X. exists (submission (selectedFile st) (enteredUrl st)).
      rewrite (submit_one st X). apply request_posted, X.
  - intros X. split; [exact (submit_one st X)|].
    rewrite (submit_one st X). apply request_posted, X.
Qed.

(** A use of C1: with both inputs present, and on the untouched form. *)
Lemma C1_submit_needs_exactly_one_input_witness :
  (errorMessage (texts (handleFormSubmit bothPage))
   = "Please provide either a file or URL, not both"
   /\ posted (handleFormSubmit bothPage) = [])
  /\ (errorMessage (texts (handleFormSubmit initial))
      = "Please upload an image file or enter an image URL"
      /\ posted (handleFormSubmit initial) = []).
Proof.
  split.
  - destruct (C1_submit_needs_exactly_one_input bothPage) as [H _].
    destruct H as (_ & M & _ & P).
    + reflexivity.
    + vm_compute. discriminate.
    + split; [exact M | exact P].
  - destruct (C1_submit_needs_exactly_one_input initial) as (_ & H & _).
    destruct H as (_ & M & _ & P).
    + reflexivity.
    + reflexivity.
    + split; [exact M | exact P].
Defined.

(** ** Files that are not images *)

(** C6 at a file that is not an image, chosen in the file dialog: the
    change handler shows 'Please select an image file' and issues no
    request, but the file stays selected; the submission that follows shows
    no validation error and posts the file to the analysis endpoint. *)
Lemma C6_non_image_file_is_posted :
  startsWith (type pdfFile) "image/" = false
  /\ feasible [EvChange [pdfFile]; EvSubmit] initial = true
  /\ errorMessage (texts (run [EvChange [pdfFile]] initial))
     = "Please select an image file"
  /\ posted (run [EvChange [pdfFile]] initial) = []
  /\ selectedFile (run [EvChange [pdfFile]] initial) = Some pdfFile
  /\ posted (run [EvChange [pdfFile]; EvSubmit] initial)
     = [ {| method := "POST"; endpoint := "/api/analyze";
            body := [("file", FileValue pdfFile)] |} ]
  /\ cards (run [EvChange [pdfFile]; EvSubmit] initial)
     = {| welcomeCard := none; loadingCard := block;
          resultsCard := none; errorCard := none |}.
Proof. vm_compute. repeat split. Qed.

(** The same file dropped on the upload area is refused: it is not
    selected, and a submission that follows posts nothing. *)
Lemma dropped_non_image_file_is_not_posted :
  errorMessage (texts (run [EvDrop [pdfFile]] initial))
  = "Please drop an image file"
  /\ selectedFile (run [EvDrop [pdfFile]] initial) = None
  /\ posted (run [EvDrop [pdfFile]; EvSubmit] initial) = [].
Proof. vm_compute. repeat split. Qed.

(** The handlers that report a validation error issue no request in doing
    so. *)
Lemma validation_errors_post_nothing (st : page) :
  (forall file, startsWith (type file) "image/" = false ->
     posted (previewFile file st) = posted st
     /\ errorMessage (texts (previewFile file st)) = "Please select an image file")
  /\ (forall file rest, startsWith (type file) "image/" = false ->
     posted (handleDrop (file :: rest) st) = posted st
     /\ files (upload (handleDrop (file :: rest) st)) = files (upload st)
     /\ errorMessage (texts (handleDrop (file :: rest) st))
        = "Please drop an image file")
  /\ (enteredUrl st = "" ->
     posted (previewUrl st) = posted st
     /\ errorMessage (texts (previewUrl st)) = "Please enter an image URL")
  /\ (posted (urlPreviewImage_onerror st) = posted st
     /\ errorMessage (texts (urlPreviewImage_onerror st))
        = "Unable to load image from URL. Please check the URL and try again.").
Proof.
  unfold enteredUrl. repeat apply conj.
  - intros file F. unfold previewFile. rewrite F. run_page. auto.
  - intros file rest F. unfold handleDrop. rewrite F. run_page. auto.
  - intros U. unfold previewUrl. rewrite U. run_page. auto.
  - run_page. reflexivity.
  - run_page. reflexivity.
Qed.

(** ** The two inputs *)

Lemma exclusiveInputs_step (e : event) (st : page) :
  exclusiveInputs st -> exclusiveInputs (handle e st).
Proof.
  unfold exclusiveInputs, selectedFile, enteredUrl.
  intros Inv. destruct e; page_cases; auto.
  all: try (right; apply nonEmpty_false; assumption).
  all: destruct Inv as [Inv|Inv]; [congruence | auto].
Qed.

(** C7: choosing a file in the dialog, or dropping an image file, selects
    it, empties the URL field and hides the URL preview; typing a URL (a
    text that is not empty once trimmed, which is how the script reads the
    field) empties the file selection and hides the file preview; and along
    every run of events from a page where at most one of the two inputs is
    present, at most one of them is present: never a selected file
    together with a URL. *)
Theorem C7_file_and_url_are_exclusive :
  (forall file rest st,
      selectedFile (handle (EvChange (file :: rest)) st) = Some file
      /\ value (urlBox (handle (EvChange (file :: rest)) st)) = ""
      /\ urlPreview (urlBox (handle (EvChange (file :: rest)) st)) = none)
  /\ (forall file rest st,
      startsWith (type file) "image/" = true ->
      selectedFile (handle (EvDrop (file :: rest)) st) = Some file
      /\ value (urlBox (handle (EvDrop (file :: rest)) st)) = ""
      /\ urlPreview (urlBox (handle (EvDrop (file :: rest)) st)) = none)
  /\ (forall text st,
      trim text <> "" ->
      files (upload (handle (EvInput text) st)) = []
      /\ filePreview (upload (handle (EvInput text) st)) = none
      /\ value (urlBox (handle (EvInput text) st)) = text)
  /\ (forall es st,
      exclusiveInputs st ->
      exclusiveInputs (run es st)
      /\ (selectedFile (run es st) <> None -> enteredUrl (run es st) = "")).
Proof.
  repeat apply conj.
  - intros file rest st. unfold selectedFile. page_cases; auto.
  - intros file rest st F. unfold selectedFile, handle, handleDrop.
    rewrite F. page_cases; auto.
  - intros text st T. apply nonEmpty_true in T.
    unfold handle, clearFileWhenUrlEntered.
    replace (value (urlBox (with_urlBox st _))) with text by reflexivity.
    rewrite T. run_page. auto.
  - intros es st Inv.
    pose proof (run_invariant exclusiveInputs exclusiveInputs_step es st Inv) as H.
    split; [exact H|]. destruct H as [H|H]; [congruence | auto].
Qed.

(** A use of C7: a photo is chosen, then a URL is typed, then a photo is
    dropped. *)
Lemma C7_file_and_url_are_exclusive_witness :
  exclusiveInputs
    (run [EvChange [carPhoto]; EvInput "https://example.com/car.jpg";
          EvDrop [carPhoto]] initial)
  /\ files (upload (handle (EvInput "https://example.com/car.jpg")
                           (run [EvChange [carPhoto]] initial))) = [].
Proof.
  destruct C7_file_and_url_are_exclusive as (_ & _ & T & R). split.
  - apply R. left. reflexivity.
  - apply T. vm_compute. discriminate.
Defined.

(** A read that a file selection started can finish after a URL was typed:
    the file preview is then displayed again, although no file is selected
    any more. *)
Lemma late_read_shows_file_preview_again :
  feasible [EvChange [carPhoto]; EvInput "https://example.com/car.jpg";
            EvReaderLoad "data:image/jpeg;base64,AAAA"] initial = true
  /\ upload (run [EvChange [carPhoto]; EvInput "https://example.com/car.jpg";
                  EvReaderLoad "data:image/jpeg;base64,AAAA"] initial)
     = {| files := []; previewImage_src := "data:image/jpeg;base64,AAAA";
          filePreview := block; reading := [] |}.
Proof. vm_compute. split; reflexivity. Qed.

(** ** Failed analyses *)

Lemma catch_spec (message : string) (st : page) :
  errorMessage (texts (analyzeImage_catch message st))
  = if includes message "fetch" then CONNECTIVITY
    else if nonEmpty message then message
    else "Failed to analyze image. Please try again.".
Proof.
  unfold analyzeImage_catch.
  destruct (includes message "fetch"); [|destruct (nonEmpty message)];
    run_page; reflexivity.
Qed.

Lemma settle_failure (r : fetchResult) (st : page) :
  succeeded r = None ->
  errorView (analyzeImage_settle r st)
  /\ buttonIdle (analyzeImage_settle r st)
  /\ currentAnalysisData (analyzeImage_settle r st) = currentAnalysisData st
  /\ carMake (texts (analyzeImage_settle r st)) = carMake (texts st)
  /\ carModel (texts (analyzeImage_settle r st)) = carModel (texts st)
  /\ carColor (texts (analyzeImage_settle r st)) = carColor (texts st)
  /\ damageSummary (texts (analyzeImage_settle r st)) = damageSummary (texts st)
  /\ repairCost (texts (analyzeImage_settle r st)) = repairCost (texts st).
Proof.
  unfold succeeded. destruct r as [m | status [data | m]]; intros S.
  - page_cases; repeat split.
  - destruct (ok status) eqn:O; cbn [andb] in S.
    + destruct (truthy (success data)) eqn:T; [discriminate|].
      unfold analyzeImage_settle, analyzeImage_try. rewrite O, T.
      page_cases; repeat split.
    + unfold analyzeImage_settle, analyzeImage_try. rewrite O.
      page_cases; repeat split.
  - page_cases; repeat split.
Qed.

Lemma serverFailure_not_succeeded (r : fetchResult) :
  serverFailure r = true -> succeeded r = None.
Proof.
  destruct r as [m | status [data | m]]; cbn; intros F; try reflexivity.
  destruct (ok status), (truthy (success data)); cbn in *; congruence.
Qed.

Lemma settle_failure_message (status : Z) (body : jsobject) (st : page) :
  serverFailure (Response status (Parsed body)) = true ->
  errorMessage (texts (analyzeImage_settle (Response status (Parsed body)) st))
  = if includes (orElse (messageField status body) "Analysis failed") "fetch"
    then CONNECTIVITY
    else if nonEmpty (orElse (messageField status body) "Analysis failed")
    then orElse (messageField status body) "Analysis failed"
    else "Failed to analyze image. Please try again.".
Proof.
  intros F. unfold messageField.
  unfold analyzeImage_settle, analyzeImage_try. cbn in F.
  destruct (ok status) eqn:O; cbn [negb orb] in *.
  - rewrite negb_true_iff in F. rewrite F.
    rewrite <- (catch_spec _ st). page_cases; reflexivity.
  - rewrite <- (catch_spec _ st). page_cases; reflexivity.
Qed.

(** A failure response whose body does not parse shows the parser's
    message (or one of the two generic messages in its place). *)
Lemma unparsable_failure_message (status : Z) (message : string) (st : page) :
  errorMessage (texts (analyzeImage_settle (Response status (Unparsable message)) st))
  = if includes message "fetch" then CONNECTIVITY
    else if nonEmpty message then message
    else "Failed to analyze image. Please try again.".
Proof. page_cases; reflexivity. Qed.

(** What a server failure does on every page: a response with a status
    outside 2xx, or with a body whose [success] is not truthy, ends the
    attempt in the error view (error card alone displayed, button idle),
    never in the results view: the results card is hidden, the rendered
    result fields and the stored result are as they were. When the body is
    a JSON object, the message comes from its [detail] (status outside 2xx)
    or [error] (otherwise): 'Analysis failed' when that property is missing
    or not truthy; its text when it is truthy and the text is not empty and
    does not contain 'fetch'; the connectivity message when the text
    contains 'fetch'; and the fallback of the [catch] block when the
    property is truthy and prints as the empty string, as an empty array
    does. *)
Lemma server_failure_ends_in_error_view (r : fetchResult) (st : page) :
  serverFailure r = true ->
  errorView (analyzeImage_settle r st)
  /\ buttonIdle (analyzeImage_settle r st)
  /\ currentAnalysisData (analyzeImage_settle r st) = currentAnalysisData st
  /\ carMake (texts (analyzeImage_settle r st)) = carMake (texts st)
  /\ carModel (texts (analyzeImage_settle r st)) = carModel (texts st)
  /\ carColor (texts (analyzeImage_settle r st)) = carColor (texts st)
  /\ damageSummary (texts (analyzeImage_settle r st)) = damageSummary (texts st)
  /\ repairCost (texts (analyzeImage_settle r st)) = repairCost (texts st)
  /\ (forall status body,
        r = Response status (Parsed body) ->
        (truthy (messageField status body) = false ->
         errorMessage (texts (analyzeImage_settle r st)) = "Analysis failed")
        /\ (truthy (messageField status body) = true ->
            includes (toString (messageField status body)) "fetch" = false ->
            nonEmpty (toString (messageField status body)) = true ->
            errorMessage (texts (analyzeImage_settle r st))
            = toString (messageField status body))
        /\ (truthy (messageField status body) = true ->
            includes (toString (messageField status body)) "fetch" = true ->
            errorMessage (texts (analyzeImage_settle r st)) = CONNECTIVITY)
        /\ (truthy (messageField status body) = true ->
            toString (messageField status body) = "" ->
            errorMessage (texts (analyzeImage_settle r st))
            = "Failed to analyze image. Please try again.")).
Proof.
  intros F.
  destruct (settle_failure r st (serverFailure_not_succeeded r F))
    as (V & B & D & T1 & T2 & T3 & T4 & T5).
  repeat (split; [assumption|]).
  intros status body ->. rewrite (settle_failure_message status body st F).
  unfold orElse. split; [|split; [|split]]; intros T.
  - rewrite T. reflexivity.
  - intros I N. rewrite T, I, N. reflexivity.
  - intros I. rewrite T, I. reflexivity.
  - intros E. rewrite T, E. reflexivity.
Qed.

(** The endpoint answers 500 with the detail 'Image too large': the page
    shows it. *)
Lemma server_detail_is_shown :
  errorView (analyzeImage_settle
               (Response 500 (Parsed (detailOnly "Image too large"))) loadingPage)
  /\ errorMessage (texts (analyzeImage_settle
        (Response 500 (Parsed (detailOnly "Image too large"))) loadingPage))
     = "Image too large".
Proof.
  destruct (server_failure_ends_in_error_view
              (Response 500 (Parsed (detailOnly "Image too large"))) loadingPage)
    as (V & _ & _ & _ & _ & _ & _ & _ & M).
  - reflexivity.
  - split; [exact V|].
    destruct (M 500%Z (detailOnly "Image too large") eq_refl) as (_ & M1 & _).
    apply M1; reflexivity.
Qed.

(** The endpoint answers 422 with an empty array as detail: the array is
    truthy and prints as the empty string, so the page shows the fallback
    of the [catch] block; with an array of objects it shows how the array
    prints. *)
Lemma array_detail_is_printed :
  errorMessage (texts (analyzeImage_settle
     (Response 422 (Parsed (detailOf (JArr [])))) loadingPage))
  = "Failed to analyze image. Please try again."
  /\ errorMessage (texts (analyzeImage_settle
       (Response 422 (Parsed (detailOf (JArr [JObj; JObj])))) loadingPage))
     = "[object Object],[object Object]".
Proof. split; reflexivity. Qed.

(** A [fetch] that is rejected (the request never reached the endpoint)
    with a message that mentions 'fetch', as browsers word it, shows the
    connectivity message: the case the guard of the [catch] block is
    for. *)
Lemma rejected_fetch_shows_connectivity (st : page) :
  errorMessage (texts (analyzeImage_settle (Rejected "Failed to fetch") st))
  = CONNECTIVITY.
Proof.
  unfold analyzeImage_settle, analyzeImage_try, analyzeImage_catch.
  change (includes "Failed to fetch" "fetch") with true.
  run_page. reflexivity.
Qed.

(** C2 does not hold of the script. The endpoint answers 400 with the
    detail 'Failed to fetch image from URL': a failure the server reports,
    with a message. The attempt does end in the error view, but the message
    displayed is the connectivity message that the [catch] block has for a
    rejected [fetch], not the detail: the block tests
    [error.message.includes('fetch')] on every error it catches, also on
    the one the [try] block throws with the server's message. *)
Theorem C2_server_detail_mentioning_fetch_is_masked :
  feasible refusedRun initial = true
  /\ serverFailure refusedUrl = true
  /\ messageField 400 (detailOnly "Failed to fetch image from URL")
     = JStr "Failed to fetch image from URL"
  /\ errorView (run refusedRun initial)
  /\ errorMessage (texts (run refusedRun initial))
     = "Unable to connect to the analysis service. Please check if the backend server is running."
  /\ includes (errorMessage (texts (run refusedRun initial)))
              "Failed to fetch image from URL" = false.
Proof. vm_compute. repeat split. Qed.

(** ** The stored result *)

Lemma stored_step (e : event) (st : page) :
  currentAnalysisData (handle e st) = storedAfter e (currentAnalysisData st).
Proof.
  destruct e; page_cases; reflexivity.
Qed.

Lemma stored_kept (e : event) (before : option jsobject) :
  keepsResult e = true -> storedAfter e before = before.
Proof.
  destruct e; cbn; try discriminate; try reflexivity.
  destruct (succeeded r); [discriminate | reflexivity].
Qed.

Lemma last_success (es : list event) (st : page) (data : jsobject) :
  currentAnalysisData st = None ->
  currentAnalysisData (run es st) = Some data ->
  exists before r after,
    es = (before ++ EvSettle r :: after)%list
    /\ succeeded r = Some data
    /\ forallb keepsResult after = true.
Proof.
  intros N. induction es as [|e es IH] using rev_ind; intros H.
  - rewrite run_nil in H. congruence.
  - rewrite run_snoc, stored_step in H.
    destruct (keepsResult e) eqn:K.
    + rewrite (stored_kept e _ K) in H.
      destruct (IH H) as (before & r & after & -> & S & A).
      exists before, r, (after ++ [e])%list. repeat split.
      * rewrite <- app_assoc. reflexivity.
      * exact S.
      * rewrite forallb_app, A. cbn. rewrite K. reflexivity.
    + destruct e; try discriminate K.
      * cbn in H, K. destruct (succeeded r) as [d|] eqn:S; [|discriminate K].
        injection H as ->. exists es, r, []. repeat split. exact S.
      * cbn in H. discriminate H.
Qed.

(** C9: the stored result changes only when a request settles with a
    successful response (2xx, parsed, truthy [success]), which stores that
    response, and when [resetForm] clears it; an attempt that fails (a
    rejected fetch, a status outside 2xx, a body that does not parse or
    whose [success] is not truthy) leaves it as it was. So, from a page
    with nothing stored, whenever a result is stored it is the body of the
    most recent successful response, with no reset since; and
    [downloadReport] then saves the report of that stored result and leaves
    it stored. *)
Theorem C9_stored_result_is_latest_success :
  (forall e st,
      currentAnalysisData (handle e st) = storedAfter e (currentAnalysisData st))
  /\ (forall r st,
      succeeded r = None ->
      currentAnalysisData (analyzeImage_settle r st) = currentAnalysisData st)
  /\ (forall es st data,
      currentAnalysisData st = None ->
      currentAnalysisData (run es st) = Some data ->
      exists before r after,
        es = (before ++ EvSettle r :: after)%list
        /\ succeeded r = Some data
        /\ forallb keepsResult after = true)
  /\ (forall data now1 now2 now3 st,
      currentAnalysisData st = Some data ->
      saved (downloadReport now1 now2 now3 st)
      = {| blobText := reportText (makeReportData data now1) now2;
           blobType := "text/plain";
           fileName := reportName now3 |} :: saved st
      /\ currentAnalysisData (downloadReport now1 now2 now3 st) = Some data).
Proof.
  repeat apply conj.
  - exact stored_step.
  - intros r st S. destruct (settle_failure r st S) as (_ & _ & D & _). exact D.
  - exact last_success.
  - intros data now1 now2 now3 st D. unfold downloadReport. rewrite D.
    split; [reflexivity | exact D].
Qed.

(** A use of C9: after a successful analysis and a failed one, the result
    of the successful one is still stored. *)
Lemma C9_stored_result_is_latest_success_witness :
  currentAnalysisData
    (analyzeImage_settle (Rejected "Failed to fetch")
       (analyzeImage_settle (Response 200 (Parsed camry)) initial))
  = Some camry.
Proof.
  destruct C9_stored_result_is_latest_success as (_ & F & _).
  rewrite F by reflexivity. reflexivity.
Defined.

(** ** Rendering a result *)

(** C4: [showResults] renders every field of the response that is truthy
    as it is (its string), and 'Unknown' for a make, model or color that is
    missing or falsy; it displays the results card and hides the welcome
    and error cards. *)
Theorem C4_showResults_renders_fields_or_defaults (data : jsobject) (st : page) :
  (truthy (make data) = true ->
     carMake (texts (showResults data st)) = toString (make data))
  /\ (truthy (model data) = true ->
     carModel (texts (showResults data st)) = toString (model data))
  /\ (truthy (color data) = true ->
     carColor (texts (showResults data st)) = toString (color data))
  /\ (truthy (damage_summary data) = true ->
     damageSummary (texts (showResults data st)) = toString (damage_summary data))
  /\ (truthy (repair_cost_estimate data) = true ->
     repairCost (texts (showResults data st)) = toString (repair_cost_estimate data))
  /\ (truthy (make data) = false ->
     carMake (texts (showResults data st)) = "Unknown")
  /\ (truthy (model data) = false ->
     carModel (texts (showResults data st)) = "Unknown")
  /\ (truthy (color data) = false ->
     carColor (texts (showResults data st)) = "Unknown")
  /\ resultsCard (cards (showResults data st)) = block
  /\ errorCard (cards (showResults data st)) = none
  /\ welcomeCard (cards (showResults data st)) = none.
Proof.
  unfold showResults, orElse.
  repeat apply conj; try reflexivity; intros T; run_page; rewrite T; reflexivity.
Qed.

(** A use of C4: a full response, and one without a make. *)
Lemma C4_showResults_renders_fields_or_defaults_witness :
  carMake (texts (showResults camry loadingPage)) = "Toyota"
  /\ carMake (texts (showResults noMake loadingPage)) = "Unknown".
Proof.
  split.
  - apply (proj1 (C4_showResults_renders_fields_or_defaults camry loadingPage)).
    reflexivity.
  - destruct (C4_showResults_renders_fields_or_defaults noMake loadingPage)
      as (_ & _ & _ & _ & _ & U & _).
    apply U. reflexivity.
Defined.

(** ** Downloading the report *)

(** C5: with nothing stored, [downloadReport] shows 'No analysis data
    available to download' in the error view and saves nothing; and
    whatever is stored, [downloadReport] issues no request. *)
Theorem C5_download_needs_a_result (now1 now2 now3 : Date) (st : page) :
  (currentAnalysisData st = None ->
     downloadReport now1 now2 now3 st
       = showError "No analysis data available to download" st
     /\ errorMessage (texts (downloadReport now1 now2 now3 st))
        = "No analysis data available to download"
     /\ errorView (downloadReport now1 now2 now3 st)
     /\ saved (downloadReport now1 now2 now3 st) = saved st)
  /\ posted (downloadReport now1 now2 now3 st) = posted st
  /\ pending (downloadReport now1 now2 now3 st) = pending st.
Proof.
  split.
  - intros N. unfold downloadReport. rewrite N.
    destruct (showError_spec st "No analysis data available to download")
      as (V & _ & M & _ & _ & _ & _ & _ & S).
    auto.
  - unfold downloadReport.
    destruct (currentAnalysisData st); run_page; split; reflexivity.
Qed.

(** No run of events without a successful response stores a result. *)
Lemma nothing_stored_without_success (es : list event) :
  forallb keepsResult es = true ->
  currentAnalysisData (run es initial) = None.
Proof.
  induction es as [|e es IH] using rev_ind; intros K; [reflexivity|].
  rewrite forallb_app in K. apply andb_true_iff in K. destruct K as [K1 K2].
  cbn in K2. rewrite andb_true_r in K2.
  rewrite run_snoc, stored_step, (stored_kept e _ K2). exact (IH K1).
Qed.

(** A use of C5: on the untouched page. *)
Lemma C5_download_needs_a_result_witness :
  errorMessage (texts (downloadReport noon noon noon initial))
  = "No analysis data available to download"
  /\ saved (downloadReport noon noon noon initial) = [].
Proof.
  destruct (C5_download_needs_a_result noon noon noon initial) as [H _].
  destruct H as (_ & M & _ & S); [reflexivity|].
  split; [exact M | exact S].
Defined.

(** ** The text of the report *)

Section ReportText.

Lemma prefix_refl (p : string) : String.prefix p p = true.
Proof.
  induction p as [|c p IH]; [reflexivity|]. cbn.
  destruct (ascii_dec c c) as [_|ne]; [exact IH | now elim ne].
Qed.

Lemma includes_refl (p : string) : includes p p = true.
Proof. apply includes_prefix, prefix_refl. Qed.

Lemma includes_app_l (a b p : string) :
  includes a p = true -> includes (a ++ b) p = true.
Proof.
  intros H. destruct (includes_elim _ _ H) as (x & y & ->).
  rewrite !app_assoc_string. apply includes_app.
Qed.

Lemma includes_app_r (a b p : string) :
  includes b p = true -> includes (a ++ b) p = true.
Proof.
  intros H. destruct (includes_elim _ _ H) as (x & y & ->).
  rewrite <- app_assoc_string. apply includes_app.
Qed.

Lemma includes_unlines (ls : list string) (l p : string) :
  In l ls -> includes l p = true -> includes (unlines ls) p = true.
Proof.
  intros I H. induction ls as [|a ls IH]; [contradiction|].
  cbn [unlines]. destruct ls as [|b ls].
  - destruct I as [->|[]]. exact H.
  - destruct I as [->|I].
    + apply includes_app_l, H.
    + apply includes_app_r, includes_app_r, IH, I.
Qed.

Lemma trimStart_lead (c : ascii) (s rest : string) :
  isWhiteSpace c = false ->
  trimStart ("" ++ nl ++ String c s ++ rest) = String c s ++ rest.
Proof. intros H. cbn. rewrite H. reflexivity. Qed.

Lemma unlines_joinTo (ls : list string) (t : string) :
  unlines (ls ++ [t]) = joinTo ls t.
Proof.
  induction ls as [|l ls IH]; [reflexivity|].
  cbn [List.app joinTo fold_right]. fold (joinTo ls t). rewrite <- IH.
  cbn [unlines]. destruct (ls ++ [t])%list eqn:E; [|reflexivity].
  destruct ls; discriminate E.
Qed.

Lemma unlines_joinTo2 (ls : list string) (a b : string) :
  unlines (ls ++ [a; b]) = joinTo ls (a ++ nl ++ b).
Proof.
  induction ls as [|l ls IH]; [reflexivity|].
  cbn [List.app joinTo fold_right]. fold (joinTo ls (a ++ nl ++ b)).
  rewrite <- IH. cbn [unlines].
  destruct (ls ++ [a; b])%list eqn:E; [|reflexivity].
  destruct ls; discriminate E.
Qed.

Lemma trimEnd_joinTo (ls : list string) (t : string) :
  trimEnd t <> "" -> trimEnd (joinTo ls t) = joinTo ls (trimEnd t).
Proof.
  intros H. induction ls as [|l ls IH]; [reflexivity|].
  cbn [joinTo fold_right]. fold (joinTo ls t). fold (joinTo ls (trimEnd t)).
  assert (N : trimEnd (joinTo ls t) <> "").
  { rewrite IH. destruct ls; cbn; [exact H|].
    destruct s; cbn; discriminate. }
  rewrite trimEnd_app by (apply trimEnd_app_nonEmpty, N).
  rewrite trimEnd_app by exact N. rewrite IH. reflexivity.
Qed.

Lemma reportTemplate_shape (reportData : ReportData) (now : Date) :
  reportTemplate reportData now
  = ("" :: reportBody reportData now
        ++ ["AI-Powered Insurance Technology Demo"; "    "])%list.
Proof. reflexivity. Qed.

Lemma reportText_lines (reportData : ReportData) (now : Date) :
  reportText reportData now = unlines (reportLines reportData now).
Proof.
  unfold reportText, trim, reportLines. rewrite reportTemplate_shape.
  rewrite unlines_joinTo.
  set (tail := "AI-Powered Insurance Technology Demo" ++ nl ++ "    ").
  assert (T : trimEnd tail = "AI-Powered Insurance Technology Demo")
    by (vm_compute; reflexivity).
  rewrite <- T at 2. rewrite <- trimEnd_joinTo by (rewrite T; discriminate).
  apply f_equal.
  change (unlines ("" :: reportBody reportData now
                      ++ ["AI-Powered Insurance Technology Demo"; "    "])%list)
    with ("" ++ nl ++ unlines (reportBody reportData now
                      ++ ["AI-Powered Insurance Technology Demo"; "    "])%list).
  rewrite unlines_joinTo2. fold tail.
  change (joinTo (reportBody reportData now) tail)
    with (String "C" "LAIMCOMPASS DAMAGE ANALYSIS REPORT"
          ++ nl ++ joinTo (tl (reportBody reportData now)) tail).
  apply trimStart_lead. reflexivity.
Qed.

End ReportText.

(** The report prints every field of the stored result as a template
    literal does, and the disclaimer. *)
Lemma report_includes_fields (data : jsobject) (now1 now2 : Date) :
  includes (reportText (makeReportData data now1) now2) (toString (make data)) = true
  /\ includes (reportText (makeReportData data now1) now2) (toString (model data)) = true
  /\ includes (reportText (makeReportData data now1) now2) (toString (color data)) = true
  /\ includes (reportText (makeReportData data now1) now2)
       (toString (damage_summary data)) = true
  /\ includes (reportText (makeReportData data now1) now2)
       (toString (repair_cost_estimate data)) = true
  /\ includes (reportText (makeReportData data now1) now2) DISCLAIMER = true.
Proof.
  rewrite reportText_lines.
  repeat apply conj;
    match goal with
    | |- includes _ ?p = true =>
        first
          [ apply (includes_unlines _ p p); [cbn; tauto | apply includes_refl]
          | apply (includes_unlines _ ("Make: " ++ p) p);
            [cbn; tauto | apply includes_app_r, includes_refl]
          | apply (includes_unlines _ ("Model: " ++ p) p);
            [cbn; tauto | apply includes_app_r, includes_refl]
          | apply (includes_unlines _ ("Color: " ++ p) p);
            [cbn; tauto | apply includes_app_r, includes_refl] ]
    end.
Qed.

(** For a field of the response that is truthy, what the results view
    shows is what the report prints. *)
Lemma report_includes_rendered_fields (data : jsobject) (now1 now2 : Date)
    (st : page) :
  truthy (make data) = true ->
  truthy (model data) = true ->
  truthy (color data) = true ->
  truthy (damage_summary data) = true ->
  truthy (repair_cost_estimate data) = true ->
  includes (reportText (makeReportData data now1) now2)
    (carMake (texts (showResults data st))) = true
  /\ includes (reportText (makeReportData data now1) now2)
    (carModel (texts (showResults data st))) = true
  /\ includes (reportText (makeReportData data now1) now2)
    (carColor (texts (showResults data st))) = true
  /\ includes (reportText (makeReportData data now1) now2)
    (damageSummary (texts (showResults data st))) = true
  /\ includes (reportText (makeReportData data now1) now2)
    (repairCost (texts (showResults data st))) = true.
Proof.
  intros T1 T2 T3 T4 T5.
  destruct (report_includes_fields data now1 now2) as (I1 & I2 & I3 & I4 & I5 & _).
  unfold showResults, orElse. run_page.
  rewrite T1, T2, T3, T4, T5. auto.
Qed.

(** The name of the saved file carries the first 19 characters of the ISO
    time stamp, its colons replaced by dashes. *)
Lemma reportName_at_noon :
  reportName noon = "ClaimCompass_Report_2024-09-23T12-00-00.txt".
Proof. vm_compute. reflexivity. Qed.

(** C3 at a successful response without a make: the results view shows
    'Unknown' for the make, and the report that [downloadReport] saves
    afterwards prints 'Make: undefined' and does not contain 'Unknown'. *)
Lemma C3_report_prints_undefined_for_missing_make :
  feasible (analysisThenDownload noMake) initial = true
  /\ succeeded (Response 200 (Parsed noMake)) = Some noMake
  /\ carMake (texts (run (analysisThenDownload noMake) initial)) = "Unknown"
  /\ map (fun d => includes (blobText d) "Make: undefined")
         (saved (run (analysisThenDownload noMake) initial)) = [true]
  /\ map (fun d => includes (blobText d) "Unknown")
         (saved (run (analysisThenDownload noMake) initial)) = [false]
  /\ map fileName (saved (run (analysisThenDownload noMake) initial))
     = ["ClaimCompass_Report_2024-09-23T12-00-00.txt"].
Proof. vm_compute. repeat split. Qed.

(** With every field present the same run saves a report that contains
    what the results view shows. *)
Lemma report_after_full_response :
  feasible (analysisThenDownload camry) initial = true
  /\ carMake (texts (run (analysisThenDownload camry) initial)) = "Toyota"
  /\ map (fun d => includes (blobText d) "Make: Toyota"
                   && includes (blobText d) "Model: Camry"
                   && includes (blobText d) "Color: Silver"
                   && includes (blobText d) "Dent in the rear bumper"
                   && includes (blobText d) "$500 - $800"
                   && includes (blobText d) DISCLAIMER)
         (saved (run (analysisThenDownload camry) initial)) = [true].
Proof. vm_compute. repeat split. Qed.

(** In the rebranded copy too, [showError] ends with [hideLoading]: the
    loading section is hidden and the button is enabled with its idle
    template. *)
Lemma ScaleAI_showError_leaves_loading_state (message : string)
    (v : ScaleAI.view) :
  ScaleAI.loadingSection (ScaleAI.showError message v) = none
  /\ ScaleAI.btnDisabled (ScaleAI.showError message v) = false
  /\ ScaleAI.btnLabel (ScaleAI.showError message v) = ScaleAI.Idle
  /\ ScaleAI.errorSection (ScaleAI.showError message v) = flex
  /\ ScaleAI.errorText (ScaleAI.showError message v) = message.
Proof. repeat split. Qed.

(** * Further properties *)

(** ** Requests on the wire *)

Lemma submission_singleInput (file : option File) (url : string) :
  xorb (given file) (nonEmpty url) = true ->
  singleInput (submission file url) = true.
Proof.
  destruct file as [f|]; cbn; intros X.
  - reflexivity.
  - rewrite X. reflexivity.
Qed.

Lemma submit_posted (st : page) :
  posted (handleFormSubmit st)
  = if xorb (given (selectedFile st)) (nonEmpty (enteredUrl st))
    then submission (selectedFile st) (enteredUrl st) :: posted st
    else posted st.
Proof.
  destruct (given (selectedFile st)) eqn:F;
    destruct (nonEmpty (enteredUrl st)) eqn:U; cbn [xorb].
  - apply nonEmpty_true in U. rewrite (submit_both st F U).
    apply (showError_spec st).
  - rewrite submit_one by (rewrite F, U; reflexivity).
    apply request_posted. rewrite F, U. reflexivity.
  - rewrite submit_one by (rewrite F, U; reflexivity).
    apply request_posted. rewrite F, U. reflexivity.
  - apply nonEmpty_false in U. rewrite (submit_neither st F U).
    apply (showError_spec st).
Qed.

Lemma singleInput_step (e : event) (st : page) :
  forallb singleInput (posted st) = true ->
  forallb singleInput (posted (handle e st)) = true.
Proof.
  intros W. destruct (isSubmit e) eqn:S.
  - destruct e; try discriminate S. change (handle EvSubmit st) with (handleFormSubmit st).
    rewrite submit_posted.
    destruct (xorb (given (selectedFile st)) (nonEmpty (enteredUrl st))) eqn:X;
      [|exact W].
    cbn [forallb]. rewrite W, (submission_singleInput _ _ X). reflexivity.
  - rewrite posted_only_by_submit; [exact W|]. intros ->. discriminate S.
Qed.

(** [analyzeImage] sends what it is given: the body holds one part exactly
    when one of its two arguments is given. *)
Lemma analyzeImage_request_sends (file : option File) (url : string)
    (st : page) :
  exists r,
    posted (analyzeImage_request file url st) = r :: posted st
    /\ singleInput r = xorb (given file) (nonEmpty url).
Proof.
  unfold analyzeImage_request.
  destruct file as [f|]; destruct (nonEmpty url) eqn:U;
    eexists; (split; [reflexivity|]); cbn; rewrite ?U; reflexivity.
Qed.

(** X1: along every run of events, every request [analyzeImage] has sent
    is a POST to the analysis endpoint whose body has exactly one part: the
    selected file under [file], or a URL that is not empty under
    [image_url]; never both and never none. This rests on the tests of
    [handleFormSubmit]: [analyzeImage] itself sends a body with one part
    exactly when one of its two arguments is given. (The probe of [/health]
    at load and the loading of a preview image are not requests of
    [analyzeImage].) *)
Theorem X1_every_request_carries_one_input (es : list event) (st : page) :
  forallb singleInput (posted st) = true ->
  forallb singleInput (posted (run es st)) = true
  /\ (forall file url st0,
        exists r,
          posted (analyzeImage_request file url st0) = r :: posted st0
          /\ singleInput r = xorb (given file) (nonEmpty url)).
Proof.
  intros W. split; [|exact analyzeImage_request_sends].
  revert W. apply (run_invariant (fun st => forallb singleInput (posted st) = true)).
  exact singleInput_step.
Qed.

(** A use of X1: on the untouched page, a file is chosen and submitted, the
    request fails, a URL is typed and submitted. *)
Lemma X1_every_request_carries_one_input_witness :
  forallb singleInput
    (posted (run [EvChange [carPhoto]; EvSubmit; EvSettle (Rejected "Failed to fetch");
                  EvInput "https://example.com/car.jpg"; EvSubmit] initial))
  = true.
Proof.
  apply (X1_every_request_carries_one_input _ initial). reflexivity.
Defined.

Lemma posted_step_length (e : event) (st : page) :
  length (posted (handle e st))
  <= length (posted st) + (if isSubmit e then 1 else 0).
Proof.
  destruct (isSubmit e) eqn:S.
  - destruct e; try discriminate S. change (handle EvSubmit st) with (handleFormSubmit st).
    rewrite submit_posted.
    destruct (xorb (given (selectedFile st)) (nonEmpty (enteredUrl st)));
      cbn [length]; lia.
  - rewrite posted_only_by_submit; [lia|]. intros ->. discriminate S.
Qed.

(** X2: [analyzeImage] is reached from form submissions only: a run sends
    at most as many requests to the analysis endpoint as it holds
    submissions, and a run without a submission sends none, whatever else
    happens (file choices, drops, typing, previews, responses, resets,
    downloads, going offline). *)
Theorem X2_requests_come_from_submissions (es : list event) (st : page) :
  length (posted (run es st)) <= length (posted st) + submits es
  /\ (submits es = 0 -> posted (run es st) = posted st).
Proof.
  revert st. unfold submits. induction es as [|e es IH]; intros st.
  - split; [cbn; lia | reflexivity].
  - rewrite run_cons. destruct (IH (handle e st)) as [L N].
    pose proof (posted_step_length e st) as S. cbn [filter].
    destruct (isSubmit e) eqn:E; cbn [length] in *.
    + split; [lia | discriminate].
    + split; [lia|]. intros Z. rewrite (N Z).
      apply posted_only_by_submit. intros ->. discriminate E.
Qed.

(** A use of X2: a run without a submission. *)
Lemma X2_requests_come_from_submissions_witness :
  posted (run [EvChange [pdfFile]; EvInput "https://example.com/car.jpg";
               EvPreviewUrl; EvImageError; EvDownload noon noon noon; EvReset]
              initial) = [].
Proof.
  apply (proj2 (X2_requests_come_from_submissions _ initial)). reflexivity.
Defined.

(** ** What an analysis leaves of the form *)

Lemma inputs_kept_step (e : event) (st : page) :
  keepsInputs e = true ->
  files (upload (handle e st)) = files (upload st)
  /\ value (urlBox (handle e st)) = value (urlBox st).
Proof.
  intros K. destruct e; try discriminate K; page_cases; split; reflexivity.
Qed.

Lemma inputs_kept (es : list event) (st : page) :
  forallb keepsInputs es = true ->
  files (upload (run es st)) = files (upload st)
  /\ value (urlBox (run es st)) = value (urlBox st).
Proof.
  revert st. induction es as [|e es IH]; intros st K; [split; reflexivity|].
  cbn [forallb] in K. apply andb_true_iff in K. destruct K as [K1 K2].
  rewrite run_cons. destruct (IH (handle e st) K2) as [F V].
  destruct (inputs_kept_step e st K1) as [F1 V1]. split; congruence.
Qed.

(** X3: submitting, the settling of a request (success or failure), a
    download, going offline and the preview callbacks never change the
    selected file or the text of the URL field: only a file choice, a drop,
    typing, [previewUrl] and [resetForm] do. So after any such events a new
    submission issues the same request as a submission before them would
    have: a retry after a failure resends the same input. *)
Theorem X3_analysis_keeps_the_inputs (es : list event) (st : page) :
  forallb keepsInputs es = true ->
  files (upload (run es st)) = files (upload st)
  /\ value (urlBox (run es st)) = value (urlBox st)
  /\ (xorb (given (selectedFile st)) (nonEmpty (enteredUrl st)) = true ->
      posted (handleFormSubmit (run es st))
      = submission (selectedFile st) (enteredUrl st) :: posted (run es st)).
Proof.
  intros K. destruct (inputs_kept es st K) as [F V].
  repeat split; try assumption. intros X. rewrite submit_posted.
  unfold selectedFile, enteredUrl in *. rewrite F, V, X. reflexivity.
Qed.

(** A use of X3: a URL is submitted, the request is rejected, the user
    submits again. *)
Lemma X3_analysis_keeps_the_inputs_witness :
  posted (handleFormSubmit
            (run [EvSubmit; EvSettle (Rejected "Failed to fetch")]
                 (handle (EvInput "https://example.com/car.jpg") initial)))
  = [ submission None "https://example.com/car.jpg";
      submission None "https://example.com/car.jpg" ].
Proof.
  destruct (X3_analysis_keeps_the_inputs
              [EvSubmit; EvSettle (Rejected "Failed to fetch")]
              (handle (EvInput "https://example.com/car.jpg") initial))
    as (_ & _ & R).
  - reflexivity.
  - rewrite R by reflexivity. reflexivity.
Defined.

(** ** How an attempt ends *)

Lemma catch_message_nonEmpty (message : string) (st : page) :
  nonEmpty (errorMessage (texts (analyzeImage_catch message st))) = true.
Proof.
  unfold analyzeImage_catch.
  destruct (includes message "fetch"); [run_page; reflexivity|].
  destruct (nonEmpty message) eqn:N; run_page; [exact N | reflexivity].
Qed.

Lemma settle_failure_message_nonEmpty (r : fetchResult) (st : page) :
  succeeded r = None ->
  nonEmpty (errorMessage (texts (analyzeImage_settle r st))) = true.
Proof.
  intros S.
  assert (C : forall m, errorMessage (texts (analyzeImage_settle r st))
                        = errorMessage (texts (analyzeImage_catch m st)) ->
                        nonEmpty (errorMessage (texts (analyzeImage_settle r st))) = true).
  { intros m ->. apply catch_message_nonEmpty. }
  unfold succeeded in S. destruct r as [m | status [data | m]].
  - apply (C m). page_cases; reflexivity.
  - destruct (ok status) eqn:O.
    + destruct (truthy (success data)) eqn:T; [discriminate S|].
      apply (C (orElse (error data) "Analysis failed")).
      unfold analyzeImage_settle, analyzeImage_try. rewrite O, T.
      page_cases; reflexivity.
    + apply (C (orElse (detail data) "Analysis failed")).
      unfold analyzeImage_settle, analyzeImage_try. rewrite O.
      page_cases; reflexivity.
  - apply (C m). page_cases; reflexivity.
Qed.

(** X4: an attempt that does not succeed (a rejected fetch, a status
    outside 2xx, a body that does not parse, a [success] that is not
    truthy) always ends in the error view with a message that is not empty:
    the message of the failure, or one of the script's own when that would
    be empty or mentions 'fetch'. *)
Theorem X4_failed_attempt_shows_a_message (r : fetchResult) (st : page) :
  succeeded r = None ->
  errorView (analyzeImage_settle r st)
  /\ nonEmpty (errorMessage (texts (analyzeImage_settle r st))) = true.
Proof.
  intros S. split.
  - apply (settle_failure r st S).
  - apply settle_failure_message_nonEmpty, S.
Qed.

(** A use of X4: a rejection without a message. *)
Lemma X4_failed_attempt_shows_a_message_witness :
  errorView (analyzeImage_settle (Rejected "") loadingPage)
  /\ nonEmpty (errorMessage (texts (analyzeImage_settle (Rejected "") loadingPage)))
     = true.
Proof.
  apply (X4_failed_attempt_shows_a_message (Rejected "") loadingPage).
  reflexivity.
Defined.

Lemma settle_success
    (r : fetchResult) (data : jsobject) (st : page) :
  succeeded r = Some data ->
  resultsView (analyzeImage_settle r st)
  /\ buttonIdle (analyzeImage_settle r st)
  /\ currentAnalysisData (analyzeImage_settle r st) = Some data
  /\ texts (analyzeImage_settle r st) = texts (showResults data st)
  /\ errorMessage (texts (analyzeImage_settle r st)) = errorMessage (texts st)
  /\ upload (analyzeImage_settle r st) = upload st
  /\ urlBox (analyzeImage_settle r st) = urlBox st
  /\ posted (analyzeImage_settle r st) = posted st.
Proof.
  unfold succeeded. destruct r as [m | status [body | m]]; try discriminate.
  destruct (ok status) eqn:O; [|discriminate].
  destruct (truthy (success body)) eqn:T; [|discriminate].
  intros E. injection E as <-.
  unfold analyzeImage_settle, analyzeImage_try. rewrite O, T.
  unfold resultsView, buttonIdle. page_cases. repeat split.
Qed.






(** ** Resetting *)

(** X7: [resetForm] brings the form back to its idle state from any page:
    no file, no URL, no preview, nothing stored, the welcome card displayed
    with the results and error cards hidden, and the button idle. Doing it
    twice changes nothing more; a submission right after it is refused with
    the 'neither' message and issues no request, and a download right after
    it is refused for lack of a result. *)
Theorem X7_resetForm_returns_to_idle (st : page) :
  formCleared (resetForm st)
  /\ buttonIdle (resetForm st)
  /\ welcomeCard (cards (resetForm st)) = block
  /\ resultsCard (cards (resetForm st)) = none
  /\ errorCard (cards (resetForm st)) = none
  /\ resetForm (resetForm st) = resetForm st
  /\ handleFormSubmit (resetForm st)
     = showError "Please upload an image file or enter an image URL" (resetForm st)
  /\ posted (handleFormSubmit (resetForm st)) = posted st
  /\ (forall now1 now2 now3,
        downloadReport now1 now2 now3 (resetForm st)
        = showError "No analysis data available to download" (resetForm st)).
Proof.
  assert (S : handleFormSubmit (resetForm st)
              = showError "Please upload an image file or enter an image URL"
                          (resetForm st))
    by (apply submit_neither; reflexivity).
  unfold formCleared, buttonIdle.
  repeat apply conj; try exact S; try (intros; page_cases; reflexivity).
  rewrite S. destruct (showError_spec (resetForm st)
    "Please upload an image file or enter an image URL")
    as (_ & _ & _ & _ & _ & _ & P & _).
  rewrite P. page_cases; reflexivity.
Qed.

(** ** The analyze button *)

Lemma buttonTracksLoading_step (e : event) (st : page) :
  buttonTracksLoading st -> buttonTracksLoading (handle e st).
Proof.
  unfold buttonTracksLoading. intros Inv.
  destruct e; page_cases; tauto.
Qed.

(** X8: along every run of events the analyze button is in one of two
    forms: disabled and labelled 'Analyzing...' while the loading card is
    displayed, or enabled and labelled 'Analyze Damage'. In particular it
    is never left disabled without the loading card. *)
Theorem X8_button_is_busy_only_while_loading (es : list event) (st : page) :
  buttonTracksLoading st ->
  buttonTracksLoading (run es st)
  /\ (disabled (analyzeBtn (run es st)) = true ->
      loadingCard (cards (run es st)) = block).
Proof.
  intros Inv.
  pose proof (run_invariant buttonTracksLoading buttonTracksLoading_step es st Inv)
    as H.
  split; [exact H|]. destruct H as [(_ & _ & L)|(D & _)]; [auto | congruence].
Qed.

(** A use of X8: a submission while a first one is still in flight, after
    the page went offline in between. *)
Lemma X8_button_is_busy_only_while_loading_witness :
  buttonTracksLoading
    (run [EvInput "https://example.com/car.jpg"; EvSubmit; EvOffline; EvSubmit;
          EvSettle (Response 200 (Parsed camry))] initial).
Proof.
  apply (X8_button_is_busy_only_while_loading _ initial).
  right. split; reflexivity.
Defined.

(** ** The previews *)

Lemma filePreview_step (e : event) (st : page) :
  isReaderLoad e = false ->
  filePreview (upload st) = none ->
  filePreview (upload (handle e st)) = none.
Proof.
  intros N H. destruct e; try discriminate N; page_cases; congruence.
Qed.

Lemma urlPreview_step (e : event) (st : page) :
  isPreviewUrl e = false ->
  urlPreviewUnused st -> urlPreviewUnused (handle e st).
Proof.
  unfold urlPreviewUnused. intros N [H U].
  destruct e; try discriminate N; page_cases; split; congruence.
Qed.

(** X9: the previews appear only through their load callbacks. Along a run
    in which no file read finishes, a hidden file preview stays hidden;
    along a run in which [previewUrl] is never called, no load handler is
    installed on the URL preview image and a hidden URL preview stays
    hidden, whatever is typed, chosen, dropped, submitted or answered. *)
Theorem X9_previews_appear_only_on_load (es : list event) (st : page) :
  (forallb (fun e => negb (isReaderLoad e)) es = true ->
   filePreview (upload st) = none ->
   filePreview (upload (run es st)) = none)
  /\ (forallb (fun e => negb (isPreviewUrl e)) es = true ->
      urlPreviewUnused st -> urlPreviewUnused (run es st)).
Proof.
  split; revert st; induction es as [|e es IH]; intros st K H;
    try exact H; cbn [forallb] in K; apply andb_true_iff in K;
    destruct K as [K1 K2]; apply negb_true_iff in K1;
    rewrite run_cons; apply IH; try exact K2.
  - apply filePreview_step; assumption.
  - apply urlPreview_step; assumption.
Qed.

(** A use of X9: typing a URL and image events without [previewUrl]. *)
Lemma X9_previews_appear_only_on_load_witness :
  urlPreviewUnused
    (run [EvInput "https://example.com/car.jpg"; EvImageLoad; EvChange [carPhoto];
          EvReaderLoad "data:image/jpeg;base64,AAAA"; EvImageError] initial).
Proof.
  apply (proj2 (X9_previews_appear_only_on_load _ initial)).
  - reflexivity.
  - split; reflexivity.
Defined.

(** ** The report and the saved files *)

(** X10: [.trim()] takes from the template its leading line break and its
    trailing indentation and nothing else: whatever the stored fields hold
    (white space and line breaks included), the text of the report is the
    lines of the template from 'CLAIMCOMPASS DAMAGE ANALYSIS REPORT' to
    'AI-Powered Insurance Technology Demo', joined by line breaks, with the
    fields printed as a template literal prints them. *)
Theorem X10_report_is_the_template_without_its_margins
    (reportData : ReportData) (now : Date) :
  reportText reportData now = unlines (reportLines reportData now)
  /\ String.prefix "CLAIMCOMPASS DAMAGE ANALYSIS REPORT" (reportText reportData now)
     = true.
Proof.
  split; [apply reportText_lines|].
  rewrite reportText_lines. unfold reportLines, reportBody.
  cbn [List.app unlines]. apply prefix_app.
Qed.

(** X11: the report [downloadReport] saves contains, as a template literal
    prints them, the make, model, color, damage summary and cost estimate
    of the stored result (so 'undefined' for a missing one), the local time
    of its making, the analysis method and the disclaimer. *)
Theorem X11_report_prints_every_stored_field
    (data : jsobject) (now1 now2 : Date) :
  includes (reportText (makeReportData data now1) now2) (toString (make data)) = true
  /\ includes (reportText (makeReportData data now1) now2) (toString (model data)) = true
  /\ includes (reportText (makeReportData data now1) now2) (toString (color data)) = true
  /\ includes (reportText (makeReportData data now1) now2)
       (toString (damage_summary data)) = true
  /\ includes (reportText (makeReportData data now1) now2)
       (toString (repair_cost_estimate data)) = true
  /\ includes (reportText (makeReportData data now1) now2)
       (toLocaleString now2) = true
  /\ includes (reportText (makeReportData data now1) now2)
       "AI-powered analysis using OpenAI GPT-4o" = true
  /\ includes (reportText (makeReportData data now1) now2) DISCLAIMER = true.
Proof.
  destruct (report_includes_fields data now1 now2) as (A & B & C & D & E & F).
  repeat (split; [assumption|]). split; [|split; [|exact F]].
  - rewrite reportText_lines.
    apply (includes_unlines _ ("Generated: " ++ toLocaleString now2));
      [cbn; tauto | apply includes_app_r, includes_refl].
  - rewrite reportText_lines.
    apply (includes_unlines _ "AI-powered analysis using OpenAI GPT-4o");
      [cbn; tauto | apply includes_refl].
Qed.

Section Characters.

Variable c : ascii.

Lemma occurs_app (a b : string) : occurs c (a ++ b) = occurs c a || occurs c b.
Proof.
  induction a as [|x a IH]; [reflexivity|].
  cbn. rewrite IH. apply orb_assoc.
Qed.

Lemma occurs_replaceAll (d : ascii) (s : string) :
  Ascii.eqb d c = false -> occurs c (replaceAll c d s) = false.
Proof.
  intros N. induction s as [|x s IH]; [reflexivity|].
  cbn. rewrite IH, orb_false_r.
  destruct (Ascii.eqb x c) eqn:E; [exact N | exact E].
Qed.

End Characters.








(** The name of a report saved at noon. *)
Lemma saved_name_at_noon :
  map fileName (saved (run (analysisThenDownload camry) initial))
  = ["ClaimCompass_Report_2024-09-23T12-00-00.txt"].
Proof. reflexivity. Qed.

(** ** What a displayed view rests on *)

Lemma viewsBacked_settle (r : fetchResult) (st : page) :
  viewsBacked (analyzeImage_settle r st).
Proof.
  unfold viewsBacked. destruct (succeeded r) as [data|] eqn:S.
  - destruct (settle_success r data st S) as (V & _ & D & T & _).
    destruct V as (R & E & L & W). rewrite E, L. repeat split; try discriminate.
    intros _. exists data. split; [exact D|]. rewrite T.
    unfold rendered, showResults. run_page. repeat split.
  - destruct (settle_failure r st S) as ((E & R & L & W) & _).
    rewrite R, L. repeat split; try discriminate.
    intros _. apply (settle_failure_message_nonEmpty r st S).
Qed.

Lemma showError_backed (message : string) (st : page) :
  nonEmpty message = true -> viewsBacked (showError message st).
Proof.
  intros N. unfold viewsBacked.
  destruct (showError_spec st message) as ((E & R & L & W) & _ & M & _).
  rewrite R, L, M. repeat split; try discriminate. intros _. exact N.
Qed.

Lemma viewsBacked_step (e : event) (st : page) :
  viewsBacked st -> viewsBacked (handle e st).
Proof.
  intros Inv. destruct e;
    try (apply viewsBacked_settle);
    try (apply showError_backed; reflexivity).
  - (* change *)
    unfold handle, handleFileSelect, previewFile.
    cbn [files upload with_upload]. destruct selected as [|file rest].
    + exact Inv.
    + destruct (startsWith (type file) "image/"); cbn [negb].
      * exact Inv.
      * apply showError_backed. reflexivity.
  - (* drop *)
    unfold handle, handleDrop, previewFile. destruct dropped as [|file rest].
    + exact Inv.
    + destruct (startsWith (type file) "image/") eqn:I.
      * cbn [negb]. exact Inv.
      * apply showError_backed. reflexivity.
  - (* input *)
    unfold handle, clearFileWhenUrlEntered. cbn [value urlBox with_urlBox].
    destruct (nonEmpty (trim text)); exact Inv.
  - (* submit *)
    unfold handle, handleFormSubmit.
    destruct (negb (given _) && negb (nonEmpty _));
      [apply showError_backed; reflexivity|].
    destruct (given _ && nonEmpty _);
      [apply showError_backed; reflexivity|].
    unfold viewsBacked, analyzeImage_request. run_page.
    repeat split; try discriminate. intros _. lia.
  - (* a read finishes *)
    exact Inv.
  - (* previewUrl *)
    unfold handle, previewUrl.
    destruct (negb (nonEmpty _)); [apply showError_backed; reflexivity|].
    exact Inv.
  - (* the URL image loads *)
    unfold handle. destruct (hooked _); exact Inv.
  - (* the URL image fails *)
    unfold handle. destruct (hooked _); [|exact Inv].
    unfold urlPreviewImage_onerror.
    apply (showError_backed
      "Unable to load image from URL. Please check the URL and try again." st).
    reflexivity.
  - (* reset *)
    destruct Inv as (_ & _ & L). unfold viewsBacked, handle, resetForm.
    run_page. repeat split; try discriminate. exact L.
  - (* download *)
    unfold handle, downloadReport. destruct (currentAnalysisData st) eqn:D.
    + exact Inv.
    + apply showError_backed. reflexivity.
Qed.

(** X13: every displayed view has what it shows, along every run of
    events. Whenever the error card is displayed its message is not empty;
    whenever the results card is displayed a result is stored and the
    result elements show that stored result as [showResults] renders it (so
    a download from the results view serializes the result on display and
    is never refused); and the loading card is displayed only while a
    request is pending. *)
Theorem X13_displayed_views_are_backed (es : list event) (st : page) :
  viewsBacked st ->
  viewsBacked (run es st)
  /\ (displayed (resultsCard (cards (run es st))) = true ->
      forall now1 now2 now3,
        length (saved (downloadReport now1 now2 now3 (run es st)))
        = S (length (saved (run es st)))).
Proof.
  intros Inv.
  pose proof (run_invariant viewsBacked viewsBacked_step es st Inv) as H.
  split; [exact H|]. intros R now1 now2 now3.
  destruct H as (_ & H & _). destruct (H R) as (data & D & _).
  unfold downloadReport. rewrite D. reflexivity.
Qed.

(** A use of X13: a success, then a failure, then a second success. *)
Lemma X13_displayed_views_are_backed_witness :
  viewsBacked
    (run [EvInput "https://example.com/car.jpg"; EvSubmit;
          EvSettle (Response 200 (Parsed camry)); EvSubmit;
          EvSettle (Response 500 (Unparsable "")); EvSubmit;
          EvSettle (Response 200 (Parsed noMake))] initial).
Proof.
  apply (X13_displayed_views_are_backed _ initial).
  repeat split; intros H; discriminate H.
Defined.

(** ** From the input to the wire *)

Lemma change_selects (file : File) (rest : list File) (st : page) :
  selectedFile (handle (EvChange (file :: rest)) st) = Some file
  /\ enteredUrl (handle (EvChange (file :: rest)) st) = ""
  /\ posted (handle (EvChange (file :: rest)) st) = posted st.
Proof.
  unfold selectedFile, enteredUrl. page_cases; repeat split.
Qed.

Lemma drop_selects (file : File) (rest : list File) (st : page) :
  startsWith (type file) "image/" = true ->
  selectedFile (handle (EvDrop (file :: rest)) st) = Some file
  /\ enteredUrl (handle (EvDrop (file :: rest)) st) = ""
  /\ posted (handle (EvDrop (file :: rest)) st) = posted st.
Proof.
  intros I. unfold selectedFile, enteredUrl, handle, handleDrop.
  rewrite I. page_cases; repeat split.
Qed.

Lemma input_enters (text : string) (st : page) :
  trim text <> "" ->
  selectedFile (handle (EvInput text) st) = None
  /\ enteredUrl (handle (EvInput text) st) = trim text
  /\ posted (handle (EvInput text) st) = posted st.
Proof.
  intros T. apply nonEmpty_true in T.
  unfold selectedFile, enteredUrl, handle, clearFileWhenUrlEntered.
  replace (value (urlBox (with_urlBox st _))) with text by reflexivity.
  rewrite T. run_page. repeat split.
Qed.

(** X14: what a submission sends is the input chosen last. After image
    files are chosen in the dialog or dropped, a submission posts the first
    of them, alone, whatever URL was typed before; after a URL is typed (a
    text that is not blank), a submission posts that text without its
    surrounding white space, alone, whatever file was selected before. In
    each case the page goes to the loading view. *)
Theorem X14_submission_sends_the_last_input (st : page) :
  (forall file rest,
      startsWith (type file) "image/" = true ->
      posted (run [EvChange (file :: rest); EvSubmit] st)
      = {| method := "POST"; endpoint := "/api/analyze";
           body := [("file", FileValue file)] |} :: posted st
      /\ loadingView (run [EvChange (file :: rest); EvSubmit] st))
  /\ (forall file rest,
      startsWith (type file) "image/" = true ->
      posted (run [EvDrop (file :: rest); EvSubmit] st)
      = {| method := "POST"; endpoint := "/api/analyze";
           body := [("file", FileValue file)] |} :: posted st
      /\ loadingView (run [EvDrop (file :: rest); EvSubmit] st))
  /\ (forall text,
      trim text <> "" ->
      posted (run [EvInput text; EvSubmit] st)
      = {| method := "POST"; endpoint := "/api/analyze";
           body := [("image_url", TextValue (trim text))] |} :: posted st
      /\ loadingView (run [EvInput text; EvSubmit] st)).
Proof.
  assert (L : forall p,
             xorb (given (selectedFile p)) (nonEmpty (enteredUrl p)) = true ->
             loadingView (handleFormSubmit p)).
  { intros p X. rewrite (submit_one p X). unfold loadingView.
    run_page. repeat split. }
  repeat apply conj.
  - intros file rest I.
    destruct (change_selects file rest st) as (F & U & P).
    change (run [EvChange (file :: rest); EvSubmit] st)
      with (handleFormSubmit (handle (EvChange (file :: rest)) st)).
    split; [|apply L; rewrite F, U; reflexivity].
    rewrite submit_posted, F, U, P. reflexivity.
  - intros file rest I.
    destruct (drop_selects file rest st I) as (F & U & P).
    change (run [EvDrop (file :: rest); EvSubmit] st)
      with (handleFormSubmit (handle (EvDrop (file :: rest)) st)).
    split; [|apply L; rewrite F, U; reflexivity].
    rewrite submit_posted, F, U, P. reflexivity.
  - intros text T.
    destruct (input_enters text st T) as (F & U & P).
    change (run [EvInput text; EvSubmit] st)
      with (handleFormSubmit (handle (EvInput text) st)).
    apply nonEmpty_true in T.
    split; [|apply L; rewrite F, U, T; reflexivity].
    rewrite submit_posted, F, U, P. cbn [given xorb]. rewrite T. reflexivity.
Qed.

(** A use of X14: a URL typed with white space around it, on a page where a
    photo was selected. *)
Lemma X14_submission_sends_the_last_input_witness :
  posted (run [EvInput "  https://example.com/car.jpg "; EvSubmit]
              (handle (EvChange [carPhoto]) initial))
  = [ {| method := "POST"; endpoint := "/api/analyze";
         body := [("image_url", TextValue "https://example.com/car.jpg")] |} ].
Proof.
  destruct (X14_submission_sends_the_last_input
              (handle (EvChange [carPhoto]) initial)) as (_ & _ & H).
  destruct (H "  https://example.com/car.jpg ") as [P _].
  - vm_compute. discriminate.
  - rewrite P. reflexivity.
Defined.

(** * The rebranded copy *)

Ltac run_copy :=
  lazy beta iota zeta delta
    -[trim includes reportText reportName Rebranded.reportText
      Rebranded.reportName Rebranded.BUSY Rebranded.IDLE startsWith nonEmpty
      truthy toString orElse ok List.app String.append Nat.add Nat.sub
      Nat.pred List.tl List.hd_error List.length] in *.

Ltac split_copy_tests :=
  repeat match goal with
         | |- context [match ?x with _ => _ end] =>
             lazymatch x with
             | context [match _ with _ => _ end] => fail
             | _ => destruct x eqn:?; run_copy
             end
         end.

Ltac open_copies :=
  repeat match goal with
         | st : Rebranded.page |- _ =>
             destruct st as [? [? ? ? ? ?] [? ?] [? ? ? ? ? ?] [? ? ? ?]
                             [? ? ? ?] ? ? ? ? ? ?]
         end.

Ltac copy_cases := intros; open_copies; run_copy; split_copy_tests.

Lemma copy_run_cons (e : Rebranded.event) (es : list Rebranded.event)
    (st : Rebranded.page) :
  Rebranded.run (e :: es) st = Rebranded.run es (Rebranded.handle e st).
Proof. reflexivity. Qed.

Lemma copy_run_invariant (P : Rebranded.page -> Prop) :
  (forall e st, P st -> P (Rebranded.handle e st)) ->
  forall es st, P st -> P (Rebranded.run es st).
Proof.
  intros step es. induction es as [|e es IH]; intros st H.
  - exact H.
  - rewrite copy_run_cons. apply IH, step, H.
Qed.

(** ** Its sections *)

Lemma copy_sections_step (e : Rebranded.event) (st : Rebranded.page) :
  Rebranded.sectionsDisplayed st <= 1 ->
  Rebranded.sectionsDisplayed (Rebranded.handle e st) <= 1.
Proof.
  intros C. destruct e; copy_cases; cbn in *; lia.
Qed.

(** X15: in the rebranded copy at most one of the loading, results and
    error sections is displayed after every event of every run, with no
    condition on when [resetForm] is called: there [showResults] and
    [resetForm] hide the loading section themselves. *)
Theorem X15_copy_shows_one_section_at_most
    (es : list Rebranded.event) (st : Rebranded.page) :
  Rebranded.sectionsDisplayed st <= 1 ->
  Rebranded.sectionsDisplayed (Rebranded.run es st) <= 1.
Proof.
  apply (copy_run_invariant (fun st => Rebranded.sectionsDisplayed st <= 1)).
  exact copy_sections_step.
Qed.

(** A use of X15: a reset while the analysis is in flight. *)
Lemma X15_copy_shows_one_section_at_most_witness :
  Rebranded.sectionsDisplayed
    (Rebranded.run [Rebranded.EvInput "https://example.com/car.jpg";
                    Rebranded.EvSubmit; Rebranded.EvReset;
                    Rebranded.EvSettle (Response 200 (Parsed camry))]
                   Rebranded.initial) <= 1.
Proof.
  apply X15_copy_shows_one_section_at_most. cbn. lia.
Defined.

(** ** Its decorations *)

Lemma copy_fadeIn_step (e : Rebranded.event) (st : Rebranded.page) :
  Rebranded.fadeInExpires st -> Rebranded.fadeInExpires (Rebranded.handle e st).
Proof.
  unfold Rebranded.fadeInExpires. intros [R E].
  destruct e; copy_cases; split; intros; try discriminate; auto; try lia.
Qed.

Lemma copy_drop_clears_highlight (dropped : list File) (st : Rebranded.page) :
  Rebranded.dragover (Rebranded.handle (Rebranded.EvDrop dropped) st) = false.
Proof. copy_cases; reflexivity. Qed.

(** X16: the decorations of the copy do not stick. Along every run a
    section carries the [fade-in] class only while a timer that removes it
    is pending, so once the timers have fired no section carries it; and a
    drop always takes the [dragover] highlight off the upload area, whether
    it dropped an image, another file or nothing. *)
Theorem X16_copy_decorations_do_not_stick
    (es : list Rebranded.event) (st : Rebranded.page) :
  Rebranded.fadeInExpires st ->
  Rebranded.fadeInExpires (Rebranded.run es st)
  /\ (Rebranded.resultsTimers (Rebranded.run es st) = 0 ->
      Rebranded.resultsFadeIn (Rebranded.sections (Rebranded.run es st)) = false)
  /\ (Rebranded.errorTimers (Rebranded.run es st) = 0 ->
      Rebranded.errorFadeIn (Rebranded.sections (Rebranded.run es st)) = false)
  /\ (forall dropped,
        Rebranded.dragover
          (Rebranded.handle (Rebranded.EvDrop dropped) (Rebranded.run es st))
        = false).
Proof.
  intros Inv.
  pose proof (copy_run_invariant Rebranded.fadeInExpires copy_fadeIn_step es st Inv)
    as [R E].
  repeat split; try assumption.
  - intros Z. destruct (Rebranded.resultsFadeIn _); [|reflexivity].
    specialize (R eq_refl). lia.
  - intros Z. destruct (Rebranded.errorFadeIn _); [|reflexivity].
    specialize (E eq_refl). lia.
  - intros dropped. apply copy_drop_clears_highlight.
Qed.

(** A use of X16: an error and a result are shown, and their timers
    fire. *)
Lemma X16_copy_decorations_do_not_stick_witness :
  Rebranded.resultsFadeIn
    (Rebranded.sections
       (Rebranded.run [Rebranded.EvSubmit;
                       Rebranded.EvInput "https://example.com/car.jpg";
                       Rebranded.EvSubmit;
                       Rebranded.EvSettle (Response 200 (Parsed camry));
                       Rebranded.EvErrorTimeout; Rebranded.EvResultsTimeout]
                      Rebranded.initial)) = false.
Proof.
  destruct (X16_copy_decorations_do_not_stick
              [Rebranded.EvSubmit;
               Rebranded.EvInput "https://example.com/car.jpg";
               Rebranded.EvSubmit;
               Rebranded.EvSettle (Response 200 (Parsed camry));
               Rebranded.EvErrorTimeout; Rebranded.EvResultsTimeout]
              Rebranded.initial) as (_ & R & _).
  - split; intros H; discriminate H.
  - apply R. reflexivity.
Defined.

(** ** The two copies agree *)

Ltac run_both :=
  lazy beta iota zeta delta
    -[trim includes reportText reportName Rebranded.reportText
      Rebranded.reportName Rebranded.BUSY Rebranded.IDLE startsWith nonEmpty
      truthy toString orElse ok List.app String.append Nat.add Nat.sub
      Nat.pred List.tl List.hd_error List.length displayed] in *.

Ltac split_both_tests :=
  repeat match goal with
         | |- context [match ?x with _ => _ end] =>
             lazymatch x with
             | context [match _ with _ => _ end] => fail
             | _ => destruct x eqn:?; run_both
             end
         end.

Lemma agree_step (e : Rebranded.event) (o : page) (c : Rebranded.page) :
  agree o c ->
  agree match original e with
        | Some e' => handle e' o
        | None => o
        end
        (Rebranded.handle e c).
Proof.
  destruct o as [od [ow ol or oe] [odis ohtml] [o1 o2 o3 o4 o5 o6]
                 [ofs osrc ofp ord] [ov ousrc oup ohk] op on os].
  destruct c as [cd [cl cr ce crf cef] [cdis chtml] [c1 c2 c3 c4 c5 c6]
                 [cfs csrc cfp crd] [cv cusrc cup chk] cdo cp cn cs crt cet].
  unfold agree. cbn.
  intros (D & U & X & P & N & T1 & T2 & T3 & T4 & T5 & R & E & B & S).
  injection U as -> -> -> ->. injection X as -> -> -> ->.
  subst.
  destruct e; run_both; split_both_tests;
    repeat apply conj; try reflexivity; try assumption;
    try (cbn [List.length]; congruence).
Qed.

Lemma agree_run (es : list Rebranded.event) (o : page) (c : Rebranded.page) :
  agree o c -> agree (runOriginal es o) (Rebranded.run es c).
Proof.
  revert o c. induction es as [|e es IH]; intros o c A; [exact A|].
  cbn [runOriginal]. rewrite copy_run_cons. apply IH, agree_step, A.
Qed.

(** X17: the rebranded copy and the original script agree on everything but
    the look and the wording. Started from pages that agree, after every
    run of events the two have the same stored result, the same file
    selection, URL text and previews, the same requests issued, the same
    rendered result fields, the results element and the error element
    displayed in the one exactly when in the other, the button disabled in
    the one exactly when in the other, and as many files saved. (They may
    differ in the loading element, in the messages and labels, and in the
    text and name of the saved files.) *)
Theorem X17_the_two_copies_agree
    (es : list Rebranded.event) (o : page) (c : Rebranded.page) :
  agree o c -> agree (runOriginal es o) (Rebranded.run es c).
Proof. exact (agree_run es o c). Qed.

(** A use of X17: the two untouched pages agree, so they agree after a
    file is chosen and submitted and the request is answered. *)
Lemma X17_the_two_copies_agree_witness :
  agree
    (runOriginal [Rebranded.EvChange [carPhoto]; Rebranded.EvDragOver;
                  Rebranded.EvSubmit;
                  Rebranded.EvSettle (Response 200 (Parsed noMake))] initial)
    (Rebranded.run [Rebranded.EvChange [carPhoto]; Rebranded.EvDragOver;
                    Rebranded.EvSubmit;
                    Rebranded.EvSettle (Response 200 (Parsed noMake))]
                   Rebranded.initial).
Proof.
  apply X17_the_two_copies_agree. repeat split.
Defined.

Lemma runOriginal_run (es : list Rebranded.event) (st : page) :
  runOriginal es st = run (originals es) st.
Proof.
  revert st. induction es as [|e es IH]; intros st; [reflexivity|].
  cbn [runOriginal originals flat_map]. rewrite IH.
  destruct (original e); reflexivity.
Qed.

Lemma agree_asOriginal (c : Rebranded.page) : agree (asOriginal c) c.
Proof. repeat split. Qed.

Lemma copy_analyzeImage_request_sends (file : option File) (url : string)
    (c : Rebranded.page) :
  exists r,
    Rebranded.posted (Rebranded.analyzeImage_request file url c)
    = r :: Rebranded.posted c
    /\ singleInput r = xorb (given file) (nonEmpty url).
Proof.
  unfold Rebranded.analyzeImage_request.
  destruct file as [f|]; destruct (nonEmpty url) eqn:U;
    eexists; (split; [reflexivity|]); cbn; rewrite ?U; reflexivity.
Qed.

(** X18: what was proved of the original's analysis requests, inputs and
    stored result holds of the rebranded copy. Along every run of the
    copy's events, from a page where it holds: every request [analyzeImage]
    has sent for a submission is a POST to the analysis endpoint with
    exactly one part (the file, or a URL that is not empty); and never are
    a file selected and a URL entered together. From a page with nothing
    stored, a stored result is the body of the last successful response of
    the run, with no reset after it. The copy also exports [analyzeImage]
    in [window.ScaleAI]: called directly, which is not an event of the
    page, it sends a body with one part exactly when one of its two
    arguments is given. *)
Theorem X18_copy_keeps_the_contract
    (es : list Rebranded.event) (c : Rebranded.page) :
  forallb singleInput (Rebranded.posted c) = true ->
  (hd_error (files (Rebranded.upload c)) = None
   \/ trim (value (Rebranded.urlBox c)) = "") ->
  forallb singleInput (Rebranded.posted (Rebranded.run es c)) = true
  /\ (hd_error (files (Rebranded.upload (Rebranded.run es c))) = None
      \/ trim (value (Rebranded.urlBox (Rebranded.run es c))) = "")
  /\ (Rebranded.currentAnalysisData c = None ->
      forall data,
        Rebranded.currentAnalysisData (Rebranded.run es c) = Some data ->
        exists before r after,
          originals es = (before ++ EvSettle r :: after)%list
          /\ succeeded r = Some data
          /\ forallb keepsResult after = true)
  /\ (forall file url c0,
        exists r,
          Rebranded.posted (Rebranded.analyzeImage_request file url c0)
          = r :: Rebranded.posted c0
          /\ singleInput r = xorb (given file) (nonEmpty url)).
Proof.
  intros W E.
  destruct (agree_run es (asOriginal c) c (agree_asOriginal c))
    as (D & U & X & P & _).
  rewrite runOriginal_run in *. rewrite <- D, <- U, <- X, <- P.
  split; [|split; [|split]].
  - apply (run_invariant (fun st => forallb singleInput (posted st) = true)
             singleInput_step). exact W.
  - apply (run_invariant exclusiveInputs exclusiveInputs_step). exact E.
  - intros N data. apply last_success. exact N.
  - exact copy_analyzeImage_request_sends.
Qed.

(** A use of X18: from the untouched page of the copy. *)
Lemma X18_copy_keeps_the_contract_witness :
  forallb singleInput
    (Rebranded.posted
       (Rebranded.run [Rebranded.EvChange [carPhoto]; Rebranded.EvSubmit;
                       Rebranded.EvInput "https://example.com/car.jpg";
                       Rebranded.EvSubmit] Rebranded.initial)) = true.
Proof.
  apply (X18_copy_keeps_the_contract _ Rebranded.initial).
  - reflexivity.
  - left. reflexivity.
Defined.

(** ** Its report *)

Lemma trimEnd_app_blank (a b : string) :
  trimEnd b = "" -> trimEnd (a ++ b) = trimEnd a.
Proof.
  intros B. induction a as [|c a IH]; [exact B|].
  cbn [String.append trimEnd]. rewrite IH. reflexivity.
Qed.

Lemma copy_reportText_lines (reportData : Rebranded.ReportData)
    (now2 now3 : Date) :
  trimEnd (toISOString now3) <> "" ->
  Rebranded.reportText reportData now2 now3
  = unlines (Rebranded.reportBody reportData now2
               ++ [trimEnd (toISOString now3)])%list.
Proof.
  intros N. unfold Rebranded.reportText, trim.
  change (Rebranded.reportTemplate reportData now2 now3)
    with ("" :: Rebranded.reportBody reportData now2
             ++ [toISOString now3; "    "])%list.
  rewrite unlines_joinTo.
  assert (T : trimEnd (toISOString now3 ++ nl ++ "    ")
              = trimEnd (toISOString now3))
    by (apply trimEnd_app_blank; reflexivity).
  rewrite <- T. rewrite <- trimEnd_joinTo by (rewrite T; exact N).
  apply f_equal.
  change (unlines ("" :: Rebranded.reportBody reportData now2
                      ++ [toISOString now3; "    "])%list)
    with ("" ++ nl ++ unlines (Rebranded.reportBody reportData now2
                      ++ [toISOString now3; "    "])%list).
  rewrite unlines_joinTo2.
  change (joinTo (Rebranded.reportBody reportData now2)
                 (toISOString now3 ++ nl ++ "    "))
    with (String "S" "CALE AI - VEHICLE DAMAGE ANALYSIS REPORT"
          ++ nl ++ joinTo (tl (Rebranded.reportBody reportData now2))
                          (toISOString now3 ++ nl ++ "    ")).
  apply trimStart_lead. reflexivity.
Qed.

(** X19: the report of the rebranded copy. When the ISO time stamp that
    ends the template is not blank, [.trim()] takes from the template its
    leading line break and what white space follows the time stamp, and
    nothing else: the text is the lines from 'SCALE AI - VEHICLE DAMAGE
    ANALYSIS REPORT' to the time stamp, joined by line breaks. It contains
    the five stored fields as a template literal prints them, the service
    name and the disclaimer; and the name of the file has no colon,
    whatever the clock returns. *)
Theorem X19_copy_report_is_the_template_without_its_margins
    (data : jsobject) (now1 now2 now3 now4 : Date) :
  trimEnd (toISOString now3) <> "" ->
  Rebranded.reportText (Rebranded.makeReportData data now1) now2 now3
  = unlines (Rebranded.reportBody (Rebranded.makeReportData data now1) now2
               ++ [trimEnd (toISOString now3)])%list
  /\ includes (Rebranded.reportText (Rebranded.makeReportData data now1) now2 now3)
       (toString (make data)) = true
  /\ includes (Rebranded.reportText (Rebranded.makeReportData data now1) now2 now3)
       (toString (model data)) = true
  /\ includes (Rebranded.reportText (Rebranded.makeReportData data now1) now2 now3)
       (toString (color data)) = true
  /\ includes (Rebranded.reportText (Rebranded.makeReportData data now1) now2 now3)
       (toString (damage_summary data)) = true
  /\ includes (Rebranded.reportText (Rebranded.makeReportData data now1) now2 now3)
       (toString (repair_cost_estimate data)) = true
  /\ includes (Rebranded.reportText (Rebranded.makeReportData data now1) now2 now3)
       "Scale AI Car Damage Analysis" = true
  /\ includes (Rebranded.reportText (Rebranded.makeReportData data now1) now2 now3)
       DISCLAIMER = true
  /\ occurs ":"%char (Rebranded.reportName now4) = false.
Proof.
  intros N. rewrite (copy_reportText_lines _ now2 now3 N).
  split; [reflexivity|].
  repeat apply conj;
    try match goal with
    | |- includes _ ?p = true =>
        first
          [ apply (includes_unlines _ p p);
            [cbn; tauto | apply includes_refl]
          | apply (includes_unlines _ ("Make: " ++ p) p);
            [cbn; tauto | apply includes_app_r, includes_refl]
          | apply (includes_unlines _ ("Model: " ++ p) p);
            [cbn; tauto | apply includes_app_r, includes_refl]
          | apply (includes_unlines _ ("Color: " ++ p) p);
            [cbn; tauto | apply includes_app_r, includes_refl] ]
    end.
  unfold Rebranded.reportName.
  rewrite !occurs_app, occurs_replaceAll by reflexivity. reflexivity.
Qed.

(** A use of X19: at noon. *)
Lemma X19_copy_report_is_the_template_without_its_margins_witness :
  includes (Rebranded.reportText (Rebranded.makeReportData camry noon) noon noon)
    "Toyota" = true
  /\ occurs ":"%char (Rebranded.reportName noon) = false.
Proof.
  destruct (X19_copy_report_is_the_template_without_its_margins
              camry noon noon noon noon) as (_ & M & _ & _ & _ & _ & _ & _ & C).
  - vm_compute. discriminate.
  - split; [exact M | exact C].
Defined.

(** ** Its key and click handlers *)

(** [handleFormKeyDown] prevents the default action of Enter only outside
    text inputs and text areas: Enter in the URL field still submits. *)
Lemma keydown_prevents_stray_enter_only (key tagName : string) :
  Rebranded.handleFormKeyDown key tagName = true
  <-> key = "Enter" /\ tagName <> "INPUT" /\ tagName <> "TEXTAREA".
Proof.
  unfold Rebranded.handleFormKeyDown.
  rewrite !andb_true_iff, !negb_true_iff, String.eqb_eq, !String.eqb_neq.
  tauto.
Qed.
